(** * Object recognition in CIFAR-10 with convolutional networks (Keras 1.x notebook)

    The notebook [source.ipynb] is a straight-line Python program that drives
    NumPy, matplotlib and Keras 1.x.  The development embeds

    - the NumPy fragment the preprocessing cell uses (uint8 to float32
      conversion, IEEE-754 binary32 and binary64 arithmetic, [np.max],
      [np.zeros], item assignment with Python index rules, [argmax]);
    - the Keras 1.x fragment the model cells use ([np_utils.to_categorical],
      the layer constructors with their output-shape rules, [Sequential.add],
      the checks of [fit] and [evaluate] on their arrays, the [SGD]
      learning-rate rule on float32 variables, the epoch and batch loops of
      [fit] with the validation pass, the learning-phase switch of [Dropout]
      and the batch loop of [evaluate]);
    - the notebook itself: the plotting cell, the preprocessing cell, the two
      layer stacks, the optimiser configuration and the order of its
      statements.

    Library functions are embedded after their Keras 1.x / NumPy definitions;
    the notebook cells are embedded line by line.  The numerical backend
    (tensors, weights, gradients, random streams) is an interface, and the
    properties hold for every implementation of it. *)

From Stdlib Require Import ZArith QArith List Bool Lia Permutation.
From Stdlib Require Import Floats.SpecFloat.
Import ListNotations.


(** ** Exceptions as [option] *)

Module Exn.
Definition bind {A B : Type} (m : option A) (f : A -> option B) : option B :=
  match m with
  | Some a => f a
  | None => None
  end.

Fixpoint mapM {A B : Type} (f : A -> option B) (l : list A) : option (list B) :=
  match l with
  | [] => Some []
  | a :: t =>
      match f a with
      | None => None
      | Some b =>
          match mapM f t with
          | None => None
          | Some bs => Some (b :: bs)
          end
      end
  end.
End Exn.

Notation "x <- m ;; k" := (Exn.bind m (fun x => k))
  (at level 61, m at next level, right associativity).

(** ** NumPy fragment *)

Module Numpy.
Local Open Scope Z_scope.

(** IEEE-754 binary32 ([float32]) and binary64 ([float64]) values are
    [spec_float]s; the operations are the Standard Library's correctly
    rounded ones at the matching precision and exponent range. *)
Definition prec32 : Z := 24.
Definition emax32 : Z := 128.
Definition prec64 : Z := 53.
Definition emax64 : Z := 1024.

(** [a.astype('float32')] on an integer element. *)
Definition astype_float32 (x : Z) : spec_float :=
  binary_normalize prec32 emax32 x 0 false.

(** The Python scalar [255.0] once NumPy has cast it to the array's dtype. *)
Definition f32_255 : spec_float := astype_float32 255.
Definition f32_0 : spec_float := S754_zero false.
Definition f32_1 : spec_float := astype_float32 1.

(** [a / s] on float32 elements: one correctly rounded binary32 division. *)
Definition true_divide32 (x y : spec_float) : spec_float :=
  SFdiv prec32 emax32 x y.
Definition multiply32 (x y : spec_float) : spec_float :=
  SFmul prec32 emax32 x y.
Definition leb32 (x y : spec_float) : bool := SFleb x y.

(** [numpy.rint] followed by an integer cast, on a finite binary32 value. *)
Definition rint (v : spec_float) : Z :=
  match v with
  | S754_finite s m e =>
      let r :=
        match e with
        | Zneg p =>
            let d := Z.pow_pos 2 p in
            let q := Z.pos m / d in
            let rem := Z.pos m mod d in
            match 2 * rem ?= d with
            | Lt => q
            | Gt => q + 1
            | Eq => if Z.even q then q else q + 1
            end
        | _ => Z.pos m * 2 ^ e
        end in
      if s then - r else r
  | _ => 0
  end.

(** Image batches are 4-dimensional arrays (example, channel, row, column). *)
Definition nd4 (A : Type) : Type := list (list (list (list A))).

Definition map4 {A B : Type} (f : A -> B) (a : nd4 A) : nd4 B :=
  map (map (map (map f))) a.

Definition Forall4 {A : Type} (P : A -> Prop) (a : nd4 A) : Prop :=
  Forall (Forall (Forall (Forall P))) a.

(** [np.max] of a 1-d integer array; [None] is the ValueError on an empty
    array. *)
Definition np_max (y : list Z) : option Z :=
  match y with
  | [] => None
  | a :: t => Some (fold_left Z.max t a)
  end.

(** One row of [np.zeros]: float64 zeros; a negative length raises. *)
Definition zero64 : spec_float := S754_zero false.
Definition one64 : spec_float := binary_normalize prec64 emax64 1 0 false.

Definition zeros (n : Z) : option (list spec_float) :=
  if n <? 0 then None else Some (repeat zero64 (Z.to_nat n)).

(** Replace position [i] of a list (the index is known to be in range). *)
Fixpoint update {A : Type} (l : list A) (i : nat) (v : A) : list A :=
  match l, i with
  | [], _ => []
  | _ :: t, O => v :: t
  | a :: t, S j => a :: update t j v
  end.

(** [row[i] = v] with Python's index rule: a negative index counts from the
    end, an index outside [-len, len) raises IndexError. *)
Definition setitem {A : Type} (row : list A) (i : Z) (v : A) : option (list A) :=
  let len := Z.of_nat (length row) in
  if (0 <=? i) && (i <? len) then Some (update row (Z.to_nat i) v)
  else if (- len <=? i) && (i <? 0) then Some (update row (Z.to_nat (i + len)) v)
  else None.

Definition is_nan (v : spec_float) : bool :=
  match v with
  | S754_nan => true
  | _ => false
  end.

(** [argmax] over one row: the first index holding the largest value (a NaN
    wins and stops the scan); [None] is the ValueError on an empty row. *)
Fixpoint argmax_loop (mx : spec_float) (ix i : nat) (l : list spec_float) : nat :=
  match l with
  | [] => ix
  | x :: t =>
      if is_nan mx then ix
      else if SFltb mx x || is_nan x then argmax_loop x i (S i) t
      else argmax_loop mx ix (S i) t
  end.

Definition argmax (row : list spec_float) : option Z :=
  match row with
  | [] => None
  | x :: t => Some (Z.of_nat (argmax_loop x 0 1 t))
  end.

(** How many entries of a row equal [v] (IEEE equality). *)
Definition count_eq (v : spec_float) (row : list spec_float) : nat :=
  length (filter (fun w => SFeqb v w) row).

(** [a.shape[1]] of a 2-d array held as a non-empty list of rows. *)
Definition shape1 {A : Type} (a : list (list A)) : Z :=
  match a with
  | [] => 0
  | r :: _ => Z.of_nat (length r)
  end.

(** [range(k)] and the slice [a[start:stop]] for [0 <= start <= stop]. *)
Definition range (k : nat) : list nat := seq 0 k.

Definition slice {A : Type} (a : list A) (start stop : nat) : list A :=
  firstn (stop - start) (skipn start a).

(** More float32 arithmetic, and the float64 arithmetic of Python floats
    and NumPy float64 scalars. *)
Definition add32 (x y : spec_float) : spec_float := SFadd prec32 emax32 x y.
Definition add64 (x y : spec_float) : spec_float := SFadd prec64 emax64 x y.
Definition multiply64 (x y : spec_float) : spec_float := SFmul prec64 emax64 x y.
Definition true_divide64 (x y : spec_float) : spec_float := SFdiv prec64 emax64 x y.

(** [float(n)] of a Python int. *)
Definition astype_float64 (x : Z) : spec_float :=
  binary_normalize prec64 emax64 x 0 false.

(** Rounding a float to another format ([np.float64(v)], [np.float32(v)],
    [np.asarray(v, dtype=...)]); widening is exact. *)
Definition cast (prec emax : Z) (v : spec_float) : spec_float :=
  match v with
  | S754_finite s m e => binary_normalize prec emax (if s then Z.neg m else Z.pos m) e s
  | _ => v
  end.
Definition to_float32 : spec_float -> spec_float := cast prec32 emax32.
Definition to_float64 : spec_float -> spec_float := cast prec64 emax64.

(** The Python float a decimal literal [num / den] denotes (the nearest
    binary64 value), for [num] and [den] below 2^53: [python_float 1 100]
    is [0.01]. *)
Definition python_float (num den : Z) : spec_float :=
  true_divide64 (astype_float64 num) (astype_float64 den).

(** Are two floats the same datum? *)
Definition same_float (x y : spec_float) : bool :=
  match x, y with
  | S754_zero a, S754_zero b => Bool.eqb a b
  | S754_infinity a, S754_infinity b => Bool.eqb a b
  | S754_nan, S754_nan => true
  | S754_finite a m e, S754_finite b n f => Bool.eqb a b && (m =? n)%positive && (e =? f)
  | _, _ => false
  end.

End Numpy.

(** ** Keras 1.x fragment: label encoding, layers and the Sequential container

    Where the releases of Keras 1 differ, the embedding follows Keras 1.1. *)

Module Keras.
Import Numpy.
Local Open Scope Z_scope.

(** [np_utils.to_categorical(y)] with [nb_classes] left out:
    [nb_classes = np.max(y) + 1], then a zero matrix with one row per label
    and [Y[i, y[i]] = 1.].  [None] stands for the exception NumPy raises. *)
Definition one_hot_row (nb_classes : Z) (label : Z) : option (list spec_float) :=
  row <- zeros nb_classes ;;
  setitem row label one64.

Definition to_categorical (y : list Z) : option (list (list spec_float)) :=
  m <- np_max y ;;
  Exn.mapM (one_hot_row (m + 1)) y.

Inductive activation : Type := relu | softmax.
Inductive border_mode : Type := same | valid.
Inductive constraint : Type := maxnorm (m : Z).

(** Shapes leave the batch axis out, as [input_shape=(3, 32, 32)] does; the
    image ordering is ['th'] (channels first). *)
Definition shape : Type := list Z.

(** The layer constructors the notebook calls, with the arguments it passes.
    [Convolution2D(nb_filter, nb_row, nb_col, input_shape=, border_mode=,
    activation=, W_constraint=)] has unit strides; [MaxPooling2D(pool_size=)]
    has strides equal to its window and ['valid'] borders. *)
Inductive Layer : Type :=
| Convolution2D (nb_filter nb_row nb_col : Z) (input_shape : option shape)
    (border : border_mode) (act : activation) (W_constraint : option constraint)
| Dropout (p : Q)
| MaxPooling2D (pool_rows pool_cols : Z)
| Flatten
| Dense (output_dim : Z) (act : activation) (W_constraint : option constraint).

(** [conv_utils.conv_output_length] (no dilation); [None] is the
    ZeroDivisionError of [//] on a zero stride. *)
Definition conv_output_length (input_length filter_size : Z) (border : border_mode)
    (stride : Z) : option Z :=
  let output_length :=
    match border with
    | same => input_length
    | valid => input_length - filter_size + 1
    end in
  if stride =? 0 then None else Some ((output_length + stride - 1) / stride).

(** [layer.get_output_shape_for(input_shape)]; [None] is the exception raised
    when the input rank does not fit the layer's input spec, when a pooling
    stride is zero, or when [Flatten] meets an extent of zero (``not fully
    defined''). *)
Definition get_output_shape_for (l : Layer) (s : shape) : option shape :=
  match l with
  | Convolution2D nb_filter nb_row nb_col _ border _ _ =>
      match s with
      | [_; rows; cols] =>
          r <- conv_output_length rows nb_row border 1 ;;
          c <- conv_output_length cols nb_col border 1 ;;
          Some [nb_filter; r; c]
      | _ => None
      end
  | Dropout _ => Some s
  | MaxPooling2D pool_rows pool_cols =>
      match s with
      | [channels; rows; cols] =>
          r <- conv_output_length rows pool_rows valid pool_rows ;;
          c <- conv_output_length cols pool_cols valid pool_cols ;;
          Some [channels; r; c]
      | _ => None
      end
  | Flatten =>
      match s with
      | [] | [_] => None
      | _ => if existsb (Z.eqb 0) s then None else Some [fold_right Z.mul 1 s]
      end
  | Dense output_dim _ _ =>
      match s with
      | [_] => Some [output_dim]
      | _ => None
      end
  end.

Definition layer_input_shape (l : Layer) : option shape :=
  match l with
  | Convolution2D _ _ _ input_shape _ _ _ => input_shape
  | _ => None
  end.

(** A [Sequential] model: its layers in the order they were added, the shape
    of the model input, and the output shape of every layer (what
    [model.summary()] lists). *)
Record Sequential : Type := mkSequential {
  layers : list Layer;
  inputs : option shape;
  output_shapes : list shape
}.

Definition Sequential_new : Sequential :=
  {| layers := []; inputs := None; output_shapes := [] |}.

(** The tensor the next layer will be called on: the output of the last
    layer added. *)
Definition outputs (m : Sequential) : option shape :=
  match layers m with
  | [] => None
  | _ => Some (last (output_shapes m) [])
  end.

(** [model.add(layer)]: the first layer must carry [input_shape]; every later
    layer is called on the current model output, which then becomes the
    layer's output. *)
Definition add (m : Sequential) (l : Layer) : option Sequential :=
  match outputs m with
  | None =>
      s <- layer_input_shape l ;;
      o <- get_output_shape_for l s ;;
      Some {| layers := [l]; inputs := Some s; output_shapes := [o] |}
  | Some prev =>
      o <- get_output_shape_for l prev ;;
      Some {| layers := layers m ++ [l]; inputs := inputs m;
              output_shapes := output_shapes m ++ [o] |}
  end.

(** The shape each layer receives: the model input for the first layer, the
    previous layer's output for every other one. *)
Definition input_shapes (m : Sequential) : list shape :=
  match inputs m with
  | None => []
  | Some s => s :: removelast (output_shapes m)
  end.

(** Has an image (channels, rows, columns) the given shape? *)
Definition image_has_shape {A : Type} (s : shape) (image : list (list (list A))) : bool :=
  match s with
  | [channels; rows; cols] =>
      (Z.of_nat (length image) =? channels)
      && forallb (fun plane =>
                    (Z.of_nat (length plane) =? rows)
                    && forallb (fun row => Z.of_nat (length row) =? cols) plane)
                 image
  | _ => false
  end.

(** The checks [fit] and [evaluate] make on their arrays before they
    compute anything ([standardize_input_data], [check_array_lengths]):
    every image has the model's input shape, every target row the width of
    the model's output, and there are as many targets as images.  [None]
    is the exception raised otherwise. *)
Definition standardize_user_data {A B : Type} (m : Sequential) (X : nd4 A)
    (Y : list (list B)) : option unit :=
  s <- inputs m ;;
  o <- outputs m ;;
  match o with
  | [width] =>
      if forallb (image_has_shape s) X
         && forallb (fun row => Z.of_nat (length row) =? width) Y
         && Nat.eqb (length X) (length Y)
      then Some tt else None
  | _ => None
  end.

(** [make_batches(size, batch_size)]:
    [nb_batch = ceil(size / batch_size)] and the index pairs
    [(i * batch_size, min(size, (i + 1) * batch_size))]; [None] is the
    ZeroDivisionError for a zero batch size.  The quotient is taken exactly
    (Python computes it in binary64, exact for array sizes). *)
Definition make_batches (size batch_size : nat) : option (list (nat * nat)) :=
  match batch_size with
  | O => None
  | _ =>
      let nb_batch := ((size + batch_size - 1) / batch_size)%nat in
      Some (map (fun i => ((i * batch_size)%nat, Nat.min size ((i + 1) * batch_size)))
                (range nb_batch))
  end.

End Keras.

(** ** Keras 1.x fragment: optimiser, training loop, learning phase and evaluation *)

Module Training.
Import Numpy Keras.

(** [SGD(lr, momentum, decay, nesterov)].  The constructor receives Python
    floats; [lr], [momentum], [decay] and the update counter [iterations]
    are float32 backend variables ([K.variable], which rounds to float32),
    the counter starting at [0.]; [initial_decay] keeps the Python float
    for the test [decay > 0]. *)
Record SGD : Type := mkSGD {
  lr : spec_float;
  momentum : spec_float;
  decay : spec_float;
  initial_decay : spec_float;
  nesterov : bool;
  iterations : spec_float
}.

Definition SGD_new (lr momentum decay : spec_float) (nesterov : bool) : SGD :=
  {| lr := to_float32 lr; momentum := to_float32 momentum;
     decay := to_float32 decay; initial_decay := decay; nesterov := nesterov;
     iterations := f32_0 |}.

Definition decaying (o : SGD) : bool := SFltb zero64 (initial_decay o).

(** The rate [SGD.get_updates] builds into every update:
    [lr *= 1. / (1. + decay * iterations)] when [decay > 0], in float32. *)
Definition current_lr (o : SGD) : spec_float :=
  if decaying o then
    multiply32 (lr o)
      (true_divide32 f32_1 (add32 f32_1 (multiply32 (decay o) (iterations o))))
  else lr o.

(** The counter update that runs with every parameter update:
    [K.update_add(iterations, 1)].  (Under a positive decay every release
    of Keras 1 advances the counter and uses the rate above.) *)
Definition step_iterations (o : SGD) : SGD :=
  if decaying o then
    {| lr := lr o; momentum := momentum o; decay := decay o;
       initial_decay := initial_decay o; nesterov := nesterov o;
       iterations := add32 (iterations o) f32_1 |}
  else o.

(** [K.learning_phase()]: 1 while fitting, 0 in [evaluate] and [predict]. *)
Inductive phase : Type := Train | Test.

(** The numerical engine behind Keras (backend and NumPy generator), as the
    interface the embedded library code consumes.  [variables] are a model's
    weights and momentum buffers, [stream] is the state of the backend's
    random stream (the source of dropout masks), [generator] the state of
    NumPy's global generator. *)
Class Engine : Type := {
  tensor : Type;
  variables : Type;
  stream : Type;
  generator : Type;
  (** [numpy.random.seed(s)] *)
  np_seed : Z -> generator;
  (** [np.random.shuffle(index_array)] *)
  np_shuffle : generator -> list nat -> list nat * generator;
  np_shuffle_perm : forall g l, Permutation (fst (np_shuffle g l)) l;
  (** building the layers: the initialisers and the seed of the random
      stream draw from NumPy's generator *)
  initialize : list Layer -> generator -> variables * stream * generator;
  (** the deterministic layers: layer number, layer, variables, input *)
  layer_forward : nat -> Layer -> variables -> tensor -> tensor;
  (** [K.dropout(x, level)]: a mask drawn from the backend's random stream *)
  K_dropout : Q -> stream -> tensor -> tensor * stream;
  (** one run of the compiled train function on the rows [batch_ids] of the
      training arrays with the given learning rate *)
  train_function : spec_float -> list nat -> variables * stream -> variables * stream;
  (** one pass of the compiled test function over the test arrays in
      batches of the given size, as the validation at the end of an epoch
      and [evaluate] make it: it updates none of the model's variables; what
      it does to the backend's random stream depends on the backend *)
  test_pass : nat -> stream -> stream;
  (** feeding one image to the model, and reading the model's output row *)
  K_placeholder : list (list (list spec_float)) -> tensor;
  K_eval : tensor -> list spec_float;
  (** the mean categorical cross-entropy of a batch of
      (target row, predicted row) pairs, a float32 *)
  K_categorical_crossentropy : list (list spec_float * list spec_float) -> spec_float
}.

Section WithEngine.
Context {E : Engine}.

(** [Dropout.call]: [K.in_train_phase(K.dropout(x, p), x)] when [0 < p < 1],
    else [x]. *)
Definition dropout_active (p : Q) : bool :=
  negb (Qle_bool p 0) && negb (Qle_bool 1 p).

Definition call (ph : phase) (i : nat) (l : Layer) (v : variables) (s : stream)
    (x : tensor) : tensor * stream :=
  match l with
  | Dropout p =>
      if dropout_active p then
        match ph with
        | Train => K_dropout p s x
        | Test => (x, s)
        end
      else (x, s)
  | _ => (layer_forward i l v x, s)
  end.

(** The model function: every layer is called on the previous layer's
    output. *)
Fixpoint forward_from (ph : phase) (i : nat) (ls : list Layer) (v : variables)
    (s : stream) (x : tensor) : tensor * stream :=
  match ls with
  | [] => (x, s)
  | l :: rest =>
      let (y, s') := call ph i l v s x in
      forward_from ph (S i) rest v s' y
  end.

Definition forward (ph : phase) (m : Sequential) (v : variables) (s : stream)
    (x : tensor) : tensor * stream :=
  forward_from ph 0 (layers m) v s x.

(** What [fit] mutates. *)
Record TrainState : Type := mkTrainState {
  vars : variables * stream;
  optimizer : SGD;
  gen : generator;
  index_array : list nat
}.

(** One iteration of the batch loop:
    [batch_ids = index_array[batch_start:batch_end]; outs = f(ins_batch)]. *)
Definition train_batch (st : TrainState) (b : nat * nat) : TrainState :=
  let batch_ids := slice (index_array st) (fst b) (snd b) in
  let rate := current_lr (optimizer st) in
  {| vars := train_function rate batch_ids (vars st);
     optimizer := step_iterations (optimizer st);
     gen := gen st;
     index_array := index_array st |}.

Fixpoint batch_loop (st : TrainState) (batches : list (nat * nat)) : TrainState :=
  match batches with
  | [] => st
  | b :: rest => batch_loop (train_batch st b) rest
  end.

(** The validation pass after the last batch of an epoch
    ([validation_data] is given): the test function over the validation
    arrays in batches of [batch_size]. *)
Definition validate (batch_size : nat) (st : TrainState) : TrainState :=
  {| vars := (fst (vars st), test_pass batch_size (snd (vars st)));
     optimizer := optimizer st;
     gen := gen st;
     index_array := index_array st |}.

(** One iteration of the epoch loop of [_fit_loop] ([shuffle=True], the
    default of [fit]): shuffle the index array, cut it into batches, run
    them, validate.  With no batch to run, the progress logging of the
    default [verbose=1] raises at the end of the epoch. *)
Definition run_epoch (size batch_size : nat) (st : TrainState) : option TrainState :=
  let (shuffled, g) := np_shuffle (gen st) (index_array st) in
  let st1 := {| vars := vars st; optimizer := optimizer st; gen := g;
                index_array := shuffled |} in
  batches <- make_batches size batch_size ;;
  match batches with
  | [] => None
  | _ => Some (validate batch_size (batch_loop st1 batches))
  end.

Fixpoint epoch_loop (size batch_size : nat) (st : TrainState) (remaining : nat)
    : option TrainState :=
  match remaining with
  | O => Some st
  | S r =>
      st' <- run_epoch size batch_size st ;;
      epoch_loop size batch_size st' r
  end.

(** The training loop of
    [model.fit(X, y, validation_data=, nb_epoch=, batch_size=)] on arrays of
    [size] rows that passed [standardize_user_data]:
    [index_array = np.arange(size)], then the epoch loop. *)
Definition fit (size nb_epoch batch_size : nat) (v : variables * stream) (o : SGD)
    (g : generator) : option TrainState :=
  epoch_loop size batch_size
    {| vars := v; optimizer := o; gen := g; index_array := range size |} nb_epoch.

(** *** Evaluation *)

(** The model's output row for one image, in the test phase. *)
Definition predict_row (m : Sequential) (vs : variables * stream)
    (image : list (list (list spec_float))) : list spec_float :=
  K_eval (fst (forward Test m (fst vs) (snd vs) (K_placeholder image))).

(** The metric ['accuracy'] on one row:
    [K.equal(K.argmax(y_true), K.argmax(y_pred))]. *)
Definition hit (y_true y_pred : list spec_float) : bool :=
  match argmax y_true, argmax y_pred with
  | Some i, Some j => Z.eqb i j
  | _, _ => false
  end.

(** [K.mean] of a float32 vector: the sum divided by the count. *)
Definition mean32 (l : list spec_float) : spec_float :=
  true_divide32 (fold_left add32 l f32_0) (astype_float32 (Z.of_nat (length l))).

Definition batch_accuracy (rows : list (list spec_float * list spec_float)) : spec_float :=
  mean32 (map (fun r => if hit (fst r) (snd r) then f32_1 else f32_0) rows).

(** The compiled test function on one batch of (image, target row) pairs:
    the loss and the metric, two float32 scalars. *)
Definition test_function (m : Sequential) (vs : variables * stream)
    (batch : list (list (list (list spec_float)) * list spec_float))
    : spec_float * spec_float :=
  let rows := map (fun r => (snd r, predict_row m vs (fst r))) batch in
  (K_categorical_crossentropy rows, batch_accuracy rows).

(** One iteration of the batch loop of [_test_loop]:
    [outs[i] += batch_out * len(batch_ids)], where [outs] holds Python
    floats ([0.] at the first batch) and [batch_out] is a float32 scalar. *)
Definition accumulate (outs : list spec_float) (batch_outs : spec_float * spec_float)
    (len : nat) : list spec_float :=
  let weight := astype_float64 (Z.of_nat len) in
  let loss_term := multiply64 (to_float64 (fst batch_outs)) weight in
  let acc_term := multiply64 (to_float64 (snd batch_outs)) weight in
  match outs with
  | [loss; acc] => [add64 loss loss_term; add64 acc acc_term]
  | _ => [add64 zero64 loss_term; add64 zero64 acc_term]
  end.

Fixpoint test_batches (m : Sequential) (vs : variables * stream)
    (rows : list (list (list (list spec_float)) * list spec_float))
    (batches : list (nat * nat)) (outs : list spec_float) : list spec_float :=
  match batches with
  | [] => outs
  | b :: rest =>
      let batch := slice rows (fst b) (snd b) in
      test_batches m vs rows rest
        (accumulate outs (test_function m vs batch) (length batch))
  end.

(** The scores of [model.evaluate(X, y, verbose=0)] on arrays that passed
    [standardize_user_data]: batches of 32 rows in array order, the
    weighted sums of the batch results, each divided by the number of rows.
    The list is empty when there is no row. *)
Definition evaluate (m : Sequential) (vs : variables * stream)
    (X : nd4 spec_float) (Y : list (list spec_float)) : option (list spec_float) :=
  let rows := combine X Y in
  batches <- make_batches (length rows) 32 ;;
  Some (map (fun out => true_divide64 out (astype_float64 (Z.of_nat (length rows))))
            (test_batches m vs rows batches [])).

End WithEngine.
End Training.

(** ** pyplot fragment *)

Module Pyplot.
Local Open Scope Z_scope.

(** [pyplot.subplot(code)] with a single integer: it must have three
    digits, read as rows, columns and cell number, and the cell number must
    lie in 1..rows*columns; [None] is the ValueError otherwise. *)
Definition subplot (code : Z) : option (Z * Z * Z) :=
  if ((100 <=? code) && (code <=? 999))%Z then
    let rows := (code / 100)%Z in
    let cols := ((code / 10) mod 10)%Z in
    let num := (code mod 10)%Z in
    if ((1 <=? num) && (num <=? rows * cols))%Z then Some (rows, cols, num) else None
  else None.

(** The plotting cell:
    [for i in range(0, 9): pyplot.subplot(330 + 1 + i);
     pyplot.imshow(toimage(X_train[i]))], as the list of (cell, image) pairs
    it draws; [None] when a call raises. *)
Definition plot_grid {A : Type} (X_train : list A) : option (list (Z * Z * Z * A)) :=
  Exn.mapM (fun i =>
              cell <- subplot (330 + 1 + Z.of_nat i) ;;
              image <- nth_error X_train i ;;
              Some (cell, image))
           (Numpy.range 9).

End Pyplot.

(** ** The notebook *)

Module Notebook.
Import Numpy Keras Training Pyplot.

(** *** Preprocessing cell *)

(** [seed = 7] *)
Definition seed : Z := 7%Z.

(** [X = X.astype('float32'); X = X / 255.0] *)
Definition normalize (X : nd4 Z) : nd4 spec_float :=
  let X := map4 astype_float32 X in
  map4 (fun v => true_divide32 v f32_255) X.

(** One element through both steps, and the test for the closed unit
    interval. *)
Definition scale (x : Z) : spec_float := true_divide32 (astype_float32 x) f32_255.

Definition in_unit_interval (v : spec_float) : bool :=
  leb32 f32_0 v && leb32 v f32_1.

(** The inverse reading of one normalised element: scale back and round. *)
Definition denormalize_elem (v : spec_float) : Z :=
  rint (multiply32 v f32_255).

(** What [load_data()] returns: uint8 images and integer labels. *)
Record RawData : Type := mkRawData {
  raw_X_train : nd4 Z;
  raw_y_train : list Z;
  raw_X_test : nd4 Z;
  raw_y_test : list Z
}.

Record Data : Type := mkData {
  X_train : nd4 spec_float;
  y_train : list (list spec_float);
  X_test : nd4 spec_float;
  y_test : list (list spec_float);
  num_classes : Z
}.

(** The cell from [X_train.astype] to [num_classes = y_test.shape[1]]. *)
Definition preprocess (raw : RawData) : option Data :=
  let X_train := normalize (raw_X_train raw) in
  let X_test := normalize (raw_X_test raw) in
  y_train <- to_categorical (raw_y_train raw) ;;
  y_test <- to_categorical (raw_y_test raw) ;;
  Some {| X_train := X_train; y_train := y_train; X_test := X_test;
          y_test := y_test; num_classes := shape1 y_test |}.

(** *** Model cells *)

(** The simple CNN. *)
Definition shallow_model (num_classes : Z) : option Sequential :=
  let model := Sequential_new in
  model <- add model (Convolution2D 32 3 3 (Some [3; 32; 32]%Z) same relu (Some (maxnorm 3))) ;;
  model <- add model (Dropout 0.2) ;;
  model <- add model (Convolution2D 32 3 3 None same relu (Some (maxnorm 3))) ;;
  model <- add model (MaxPooling2D 2 2) ;;
  model <- add model Flatten ;;
  model <- add model (Dense 512 relu (Some (maxnorm 3))) ;;
  model <- add model (Dropout 0.5) ;;
  model <- add model (Dense num_classes softmax None) ;;
  Some model.

(** The larger CNN. *)
Definition deep_model (num_classes : Z) : option Sequential :=
  let model := Sequential_new in
  model <- add model (Convolution2D 32 3 3 (Some [3; 32; 32]%Z) same relu None) ;;
  model <- add model (Dropout 0.2) ;;
  model <- add model (Convolution2D 32 3 3 None same relu None) ;;
  model <- add model (MaxPooling2D 2 2) ;;
  model <- add model (Convolution2D 64 3 3 None same relu None) ;;
  model <- add model (Dropout 0.2) ;;
  model <- add model (Convolution2D 64 3 3 None same relu None) ;;
  model <- add model (MaxPooling2D 2 2) ;;
  model <- add model (Convolution2D 128 3 3 None same relu None) ;;
  model <- add model (Dropout 0.2) ;;
  model <- add model (Convolution2D 128 3 3 None same relu None) ;;
  model <- add model (MaxPooling2D 2 2) ;;
  model <- add model Flatten ;;
  model <- add model (Dropout 0.2) ;;
  model <- add model (Dense 1024 relu (Some (maxnorm 3))) ;;
  model <- add model (Dropout 0.2) ;;
  model <- add model (Dense 512 relu (Some (maxnorm 3))) ;;
  model <- add model (Dropout 0.2) ;;
  model <- add model (Dense num_classes softmax None) ;;
  Some model.

(** [epochs = 25; lrate = 0.01; decay = lrate/epochs;
    sgd = SGD(lr=lrate, momentum=0.9, decay=decay, nesterov=False)]: Python
    floats, and a true division of a float by an int. *)
Definition epochs : nat := 25.
Definition lrate : spec_float := python_float 1 100.
Definition decay : spec_float := true_divide64 lrate (astype_float64 (Z.of_nat epochs)).
Definition sgd : SGD := SGD_new lrate (python_float 9 10) decay false.

(** The size of the CIFAR-10 training split the notebook states: 50,000
    images (and 10,000 for testing). *)
Definition cifar_train_rows : nat := 50 * 1000.
Definition cifar_test_rows : nat := 10 * 1000.

(** *** The cells in execution order *)

Inductive arch : Type := Shallow | Deep.

Definition build (a : arch) (num_classes : Z) : option Sequential :=
  match a with
  | Shallow => shallow_model num_classes
  | Deep => deep_model num_classes
  end.

(** The statements of the code cells: the plot of the first nine training
    images, the seeding, loading and preprocessing, then for each model its
    creation, [compile], [fit], and [evaluate] with the print of
    [scores[1]]. *)
Inductive stmt : Type :=
| PlotGrid
| SetSeed (s : Z)
| LoadAndPreprocess
| CreateModel (a : arch)
| CompileModel
| FitModel (batch_size : nat)
| EvaluateModel.

Definition program : list stmt :=
  [ PlotGrid;
    SetSeed seed;
    LoadAndPreprocess;
    CreateModel Shallow;
    CompileModel;
    FitModel 32;
    EvaluateModel;
    CreateModel Deep;
    CompileModel;
    SetSeed seed;
    FitModel 64;
    EvaluateModel ].

(** Where in a statement list the statements of one kind stand. *)
Fixpoint positions_from (i : nat) (f : stmt -> bool) (p : list stmt) : list nat :=
  match p with
  | [] => []
  | s :: rest =>
      if f s then i :: positions_from (S i) f rest else positions_from (S i) f rest
  end.

Definition positions (f : stmt -> bool) (p : list stmt) : list nat :=
  positions_from 0 f p.

Definition is_set_seed (s : stmt) : bool :=
  match s with SetSeed _ => true | _ => false end.
Definition is_create (s : stmt) : bool :=
  match s with CreateModel _ => true | _ => false end.
Definition is_fit (s : stmt) : bool :=
  match s with FitModel _ => true | _ => false end.

Section Run.
Context {E : Engine}.

(** What the random generator looked like when a model's variables were
    created and what they were created as; and the generator, the variables
    and the random stream a [fit] call began with. *)
Inductive event : Type :=
| Initialized (a : arch) (before : generator) (v : variables * stream)
| FitEntered (a : arch) (at_entry : generator) (v : variables * stream).

(** The notebook's global variables. *)
Record Globals : Type := mkGlobals {
  g_gen : generator;
  g_data : option Data;
  g_model : option (arch * Sequential);
  g_vars : option (variables * stream);
  g_sgd : option SGD;
  g_scores : option (list spec_float);
  g_events : list event
}.

Definition exec (raw : RawData) (s : stmt) (G : Globals) : option Globals :=
  match s with
  | PlotGrid =>
      _ <- plot_grid (raw_X_train raw) ;;
      Some G
  | SetSeed z =>
      Some {| g_gen := np_seed z; g_data := g_data G; g_model := g_model G;
              g_vars := g_vars G; g_sgd := g_sgd G; g_scores := g_scores G;
              g_events := g_events G |}
  | LoadAndPreprocess =>
      d <- preprocess raw ;;
      Some {| g_gen := g_gen G; g_data := Some d; g_model := g_model G;
              g_vars := g_vars G; g_sgd := g_sgd G; g_scores := g_scores G;
              g_events := g_events G |}
  | CreateModel a =>
      d <- g_data G ;;
      m <- build a (num_classes d) ;;
      let '(v, g) := initialize (layers m) (g_gen G) in
      Some {| g_gen := g; g_data := g_data G; g_model := Some (a, m);
              g_vars := Some v; g_sgd := None; g_scores := g_scores G;
              g_events := g_events G ++ [Initialized a (g_gen G) v] |}
  | CompileModel =>
      _ <- g_model G ;;
      Some {| g_gen := g_gen G; g_data := g_data G; g_model := g_model G;
              g_vars := g_vars G; g_sgd := Some sgd; g_scores := g_scores G;
              g_events := g_events G |}
  | FitModel batch_size =>
      d <- g_data G ;;
      am <- g_model G ;;
      v <- g_vars G ;;
      o <- g_sgd G ;;
      _ <- standardize_user_data (snd am) (X_train d) (y_train d) ;;
      _ <- standardize_user_data (snd am) (X_test d) (y_test d) ;;
      st <- fit (length (X_train d)) epochs batch_size v o (g_gen G) ;;
      Some {| g_gen := gen st; g_data := g_data G; g_model := g_model G;
              g_vars := Some (vars st); g_sgd := Some (optimizer st);
              g_scores := g_scores G;
              g_events := g_events G ++ [FitEntered (fst am) (g_gen G) v] |}
  | EvaluateModel =>
      d <- g_data G ;;
      am <- g_model G ;;
      v <- g_vars G ;;
      _ <- g_sgd G ;;
      _ <- standardize_user_data (snd am) (X_test d) (y_test d) ;;
      scores <- evaluate (snd am) v (X_test d) (y_test d) ;;
      _ <- nth_error scores 1 ;;
      Some {| g_gen := g_gen G; g_data := g_data G; g_model := g_model G;
              g_vars := Some (fst v, test_pass 32 (snd v)); g_sgd := g_sgd G;
              g_scores := Some scores; g_events := g_events G |}
  end.

Fixpoint run (raw : RawData) (p : list stmt) (G : Globals) : option Globals :=
  match p with
  | [] => Some G
  | s :: rest =>
      G' <- exec raw s G ;;
      run raw rest G'
  end.

(** A fresh kernel: nothing defined yet, the generator in whatever state
    the interpreter started it. *)
Definition fresh (g0 : generator) : Globals :=
  {| g_gen := g0; g_data := None; g_model := None; g_vars := None;
     g_sgd := None; g_scores := None; g_events := [] |}.

End Run.
End Notebook.

(** ** The architecture as the specification lists it *)

Module Spec.
Import Numpy Keras.

(** The layer variants of the specification's data model. *)
Inductive layer : Type :=
| Convolutional (kernels kernel_rows kernel_cols : Z) (padding : border_mode)
    (act : activation) (norm_bound : option Z)
| DropoutOf (drop_probability : Q)
| MaxPool (window_rows window_cols : Z)
| FlattenAll
| DenseOf (units : Z) (act : activation) (norm_bound : option Z).

(** How a Keras layer reads as a specification layer. *)
Definition norm_bound_of (c : option constraint) : option Z :=
  match c with
  | Some (maxnorm m) => Some m
  | None => None
  end.

Definition describe (l : Keras.Layer) : layer :=
  match l with
  | Convolution2D nb_filter nb_row nb_col _ border act c =>
      Convolutional nb_filter nb_row nb_col border act (norm_bound_of c)
  | Dropout p => DropoutOf p
  | MaxPooling2D r c => MaxPool r c
  | Flatten => FlattenAll
  | Dense n act c => DenseOf n act (norm_bound_of c)
  end.

(** Section 4.2: the eight layers of the shallow variant, in order. *)
Definition shallow_sequence : list layer :=
  [ Convolutional 32 3 3 same relu (Some 3%Z);
    DropoutOf 0.2;
    Convolutional 32 3 3 same relu (Some 3%Z);
    MaxPool 2 2;
    FlattenAll;
    DenseOf 512 relu (Some 3%Z);
    DropoutOf 0.5;
    DenseOf 10 softmax None ].

(** Section 4.3: one block of the deep variant with [k] kernels. *)
Definition block (k : Z) : list layer :=
  [ Convolutional k 3 3 same relu None;
    DropoutOf 0.2;
    Convolutional k 3 3 same relu None;
    MaxPool 2 2 ].

(** The number of distinct class values observed in a label array. *)
Definition distinct_classes (y : list Z) : Z :=
  Z.of_nat (length (nodup Z.eq_dec y)).

(** The schedule the specification describes, one decay step per epoch:
    [rate_0 / (1 + decay * t)] with [decay = rate_0 / epoch_count], in the
    float32 arithmetic of the optimiser's variables. *)
Definition rate_of_epoch (rate_0 : spec_float) (epoch_count t : nat) : spec_float :=
  let decay := true_divide64 rate_0 (astype_float64 (Z.of_nat epoch_count)) in
  true_divide32 (to_float32 rate_0)
    (add32 f32_1 (multiply32 (to_float32 decay) (astype_float32 (Z.of_nat t)))).

(** Is a batch a contiguous run [a, a+1, a+2, ...] of the training set? *)
Fixpoint ascending_from (a : nat) (ids : list nat) : bool :=
  match ids with
  | [] => true
  | x :: rest => Nat.eqb x a && ascending_from (S a) rest
  end.

Definition contiguous (ids : list nat) : bool :=
  match ids with
  | [] => true
  | a :: _ => ascending_from a ids
  end.

End Spec.

(** ** Two small engines to run the embedded code on *)

Module Toy.
Import Numpy Keras Training.

Definition shuffle_perm (g : nat) (l : list nat) :
    Permutation (fst (rev l, (g + length l)%nat)) l :=
  Permutation_sym (Permutation_rev l).

(** Tensors are vectors of floats, the deterministic layers pass their
    input on, the generator and the random stream are counters, a model's
    variables are one number read off the generator, every update adds one
    to it, a pass of the test function advances the random stream by one,
    and the loss of a batch is reported as zero. *)
Definition engine : Engine := {|
  tensor := list spec_float;
  variables := nat;
  stream := nat;
  generator := nat;
  np_seed := fun z => Z.to_nat z;
  np_shuffle := fun g l => (rev l, (g + length l)%nat);
  np_shuffle_perm := shuffle_perm;
  initialize := fun _ g => ((g, g), S g);
  layer_forward := fun _ _ _ x => x;
  K_dropout := fun _ s x => (if Nat.even s then x else map (fun _ => f32_0) x, S s);
  train_function := fun _ _ vs => (S (fst vs), S (snd vs));
  test_pass := fun _ s => S s;
  K_placeholder := fun image => concat (concat image);
  K_eval := fun x => x;
  K_categorical_crossentropy := fun _ => f32_0
|}.

End Toy.

Module Recorder.
Import Numpy Keras Training.

(** Deal a list into its elements at even and at odd positions. *)
Fixpoint deal (l : list nat) : list nat * list nat :=
  match l with
  | [] => ([], [])
  | a :: rest => let (x, y) := deal rest in (a :: y, x)
  end.

Definition interleave (l : list nat) : list nat :=
  let (x, y) := deal l in x ++ y.

Definition interleave_perm (g : nat) (l : list nat) :
  Permutation (fst (interleave l, (g + length l)%nat)) l.
Proof.
  simpl. unfold interleave. induction l as [| a rest IH]; simpl.
  - constructor.
  - destruct (deal rest) as [x y]. simpl. constructor.
    eapply perm_trans; [apply Permutation_app_comm | exact IH].
Qed.

(** Like [Toy.engine], but the shuffle interleaves, a model's variables are
    the list of the updates made so far (rate and rows of each), the random
    stream is seeded off the generator when the layers are built, and a pass
    of the test function leaves the stream alone. *)
Definition engine : Engine := {|
  tensor := list spec_float;
  variables := list (spec_float * list nat);
  stream := nat;
  generator := nat;
  np_seed := fun z => Z.to_nat z;
  np_shuffle := fun g l => (interleave l, (g + length l)%nat);
  np_shuffle_perm := interleave_perm;
  initialize := fun _ g => (([], g), S g);
  layer_forward := fun _ _ _ x => x;
  K_dropout := fun _ s x => (if Nat.even s then x else map (fun _ => f32_0) x, S s);
  train_function := fun rate ids vs => (fst vs ++ [(rate, ids)], S (snd vs));
  test_pass := fun _ s => s;
  K_placeholder := fun image => concat (concat image);
  K_eval := fun x => x;
  K_categorical_crossentropy := fun _ => f32_0
|}.

End Recorder.

(** ** Sample inputs *)

Module Samples.
Import Numpy Keras Training Notebook.

(** Five training images and three test images of one pixel; the largest
    test label is 9. *)
Definition tiny : RawData :=
  {| raw_X_train := [[[[0%Z]]]; [[[64%Z]]]; [[[128%Z]]]; [[[200%Z]]]; [[[255%Z]]]];
     raw_y_train := [0; 1; 2; 3; 9]%Z;
     raw_X_test := [[[[17%Z]]]; [[[254%Z]]]; [[[7%Z]]]];
     raw_y_test := [9; 0; 3]%Z |}.

Definition tiny_data : Data :=
  Eval vm_compute in
    match preprocess tiny with
    | Some d => d
    | None => mkData [] [] [] [] 0
    end.

(** Four training and three test images of one pixel whose labels are
    exactly 0, 1, 2 in both splits. *)
Definition three_classes : RawData :=
  {| raw_X_train := [[[[0%Z]]]; [[[64%Z]]]; [[[128%Z]]]; [[[255%Z]]]];
     raw_y_train := [0; 1; 2; 1]%Z;
     raw_X_test := [[[[17%Z]]]; [[[254%Z]]]; [[[7%Z]]]];
     raw_y_test := [2; 0; 1]%Z |}.

Definition three_classes_data : Data :=
  Eval vm_compute in
    match preprocess three_classes with
    | Some d => d
    | None => mkData [] [] [] [] 0
    end.

(** A 3x32x32 image of one intensity. *)
Definition flat_image (v : Z) : list (list (list Z)) :=
  repeat (repeat (repeat v 32) 32) 3.

(** CIFAR-shaped data: nine training and four test images, labels in 0..9
    with 9 present in both splits. *)
Definition nine_rows : RawData :=
  {| raw_X_train := map flat_image [0; 30; 60; 90; 120; 150; 180; 210; 240]%Z;
     raw_y_train := [0; 1; 2; 3; 4; 5; 6; 7; 9]%Z;
     raw_X_test := map flat_image [10; 100; 200; 250]%Z;
     raw_y_test := [9; 0; 3; 3]%Z |}.

(** The same with two more training images. *)
Definition eleven_rows : RawData :=
  {| raw_X_train := map flat_image [0; 30; 60; 90; 120; 150; 180; 210; 240; 7; 77]%Z;
     raw_y_train := [0; 1; 2; 3; 4; 5; 6; 7; 9; 8; 8]%Z;
     raw_X_test := map flat_image [10; 100; 200; 250]%Z;
     raw_y_test := [9; 0; 3; 3]%Z |}.




End Samples.

(** ** The updates of a training run, as a plan *)

Module Plan.
Import Numpy Keras Training.

(** One parameter update: the epoch and the batch number it belongs to, the
    rows it is computed on and the learning rate it uses. *)
Record Update : Type := mkUpdate {
  epoch_of : nat;
  batch_of : nat;
  rows_of : list nat;
  rate_of : spec_float
}.

(** The optimiser after [k] parameter updates. *)
Fixpoint steps (k : nat) (o : SGD) : SGD :=
  match k with
  | O => o
  | S j => step_iterations (steps j o)
  end.

(** The rate of the update that follows [k] earlier ones, in closed form:
    [lr * (1 / (1 + decay * k))] in float32. *)
Definition rate_after (lr decay : spec_float) (k : nat) : spec_float :=
  multiply32 lr
    (true_divide32 f32_1
       (add32 f32_1 (multiply32 decay (astype_float32 (Z.of_nat k))))).

(** The index pairs [make_batches] yields for a non-zero batch size. *)
Definition batch_bounds (size batch_size : nat) : list (nat * nat) :=
  map (fun i => ((i * batch_size)%nat, Nat.min size ((i + 1) * batch_size)))
      (range ((size + batch_size - 1) / batch_size)).

(** A row order cut at the given index pairs. *)
Definition cut {A : Type} (order : list A) (bounds : list (nat * nat)) : list (list A) :=
  map (fun b => slice order (fst b) (snd b)) bounds.

(** The updates of one epoch run on [order]: batch [j] is the [j]-th piece
    of the order and is update number [k + j] of the run. *)
Fixpoint plan_batches (rate : nat -> spec_float) (order : list nat) (epoch j k : nat)
    (bounds : list (nat * nat)) : list Update :=
  match bounds with
  | [] => []
  | b :: rest =>
      {| epoch_of := epoch; batch_of := j;
         rows_of := slice order (fst b) (snd b); rate_of := rate k |}
      :: plan_batches rate order epoch (S j) (S k) rest
  end.

(** The updates of consecutive epochs, epoch by epoch, one row order per
    epoch, the updates numbered through. *)
Fixpoint plan_epochs (rate : nat -> spec_float) (bounds : list (nat * nat))
    (epoch k : nat) (orders : list (list nat)) : list (list Update) :=
  match orders with
  | [] => []
  | order :: rest =>
      plan_batches rate order epoch 0 k bounds
      :: plan_epochs rate bounds (S epoch) (k + length bounds) rest
  end.

(** The updates of a whole run on [size] rows in batches of [batch_size]. *)
Definition plan (rate : nat -> spec_float) (size batch_size : nat)
    (orders : list (list nat)) : list (list Update) :=
  plan_epochs rate (batch_bounds size batch_size) 0 0 orders.

(** The batches a plan holds for one epoch, in the order they run. *)
Definition epoch_batches (e : nat) (p : list (list Update)) : list (list nat) :=
  map rows_of (nth e p []).

Section WithEngine.
Context {E : Engine}.

(** The row orders of the epochs of a run: the index array after one, two,
    ... calls of [np.random.shuffle], starting from generator [g]. *)
Fixpoint epoch_orders (n : nat) (g : generator) (idx : list nat) : list (list nat) :=
  match n with
  | O => []
  | S k =>
      let (idx', g') := np_shuffle g idx in
      idx' :: epoch_orders k g' idx'
  end.

(** Making the updates of one epoch, in order, on a model's variables. *)
Definition replay (p : list Update) (v : variables * stream) : variables * stream :=
  fold_left (fun vs u => train_function (rate_of u) (rows_of u) vs) p v.

(** Carrying out a plan: the updates of each epoch, then its validation
    pass with the batch size of the run. *)
Definition carry_out (batch_size : nat) (p : list (list Update))
    (v : variables * stream) : variables * stream :=
  fold_left (fun vs updates =>
               let vs' := replay updates vs in
               (fst vs', test_pass batch_size (snd vs')))
            p v.

End WithEngine.

End Plan.

(** ** Further notions used to state properties of the notebook's calls *)

Module More.
Import Numpy Keras Training Notebook.

(** The output shapes a stack of layers produces when its first layer is
    called on a tensor of shape [s] and every other layer on the output of
    the layer before it; [None] when a layer rejects its input. *)
Fixpoint infer (s : shape) (ls : list Layer) : option (list shape) :=
  match ls with
  | [] => Some []
  | l :: rest =>
      o <- get_output_shape_for l s ;;
      os <- infer o rest ;;
      Some (o :: os)
  end.

(** [layer.count_params()] given the shape the layer is called on: a
    convolution holds [nb_filter * channels * nb_row * nb_col] weights and
    [nb_filter] biases, a dense layer [input_dim * output_dim] weights and
    [output_dim] biases, the other layers none. *)
Definition count_params (l : Layer) (input : shape) : Z :=
  match l with
  | Convolution2D nb_filter nb_row nb_col _ _ _ _ =>
      match input with
      | channels :: _ => (nb_filter * channels * nb_row * nb_col + nb_filter)%Z
      | [] => 0%Z
      end
  | Dense output_dim _ _ =>
      match input with
      | [input_dim] => (input_dim * output_dim + output_dim)%Z
      | _ => 0%Z
      end
  | _ => 0%Z
  end.

(** The total [model.summary()] prints. *)
Definition total_params (m : Sequential) : Z :=
  fold_right Z.add 0%Z
    (map (fun li => count_params (fst li) (snd li)) (combine (layers m) (input_shapes m))).

(** The label a one-hot row stands for when [label] was written with
    Python's index rule into a row of [width] entries. *)
Definition wrapped_label (width label : Z) : Z :=
  if (label <? 0)%Z then (label + width)%Z else label.

Section WithEngine.
Context {E : Engine}.

(** The generator and the index array after [n] calls of
    [np.random.shuffle(index_array)]. *)
Fixpoint shuffles (n : nat) (g : generator) (idx : list nat) : generator * list nat :=
  match n with
  | O => (g, idx)
  | S k =>
      let (idx', g') := np_shuffle g idx in
      shuffles k g' idx'
  end.

(** One iteration of the batch loop of [_test_loop], on the rows of the
    batch. *)
Definition accumulate_batch (m : Sequential) (vs : variables * stream)
    (outs : list spec_float)
    (batch : list (list (list (list spec_float)) * list spec_float)) : list spec_float :=
  accumulate outs (test_function m vs batch) (length batch).



End WithEngine.


(** A dataset shaped like CIFAR-10: at least nine training images, every
    image 3x32x32, one label per image, labels in 0..9 with 9 present in
    both splits, and a test split that is not empty. *)
Definition in_0_9 (l : Z) : bool := ((0 <=? l) && (l <=? 9))%Z.

Definition cifar_like (raw : RawData) : bool :=
  Nat.leb 9 (length (raw_X_train raw))
  && forallb (image_has_shape [3; 32; 32]%Z) (raw_X_train raw)
  && forallb (image_has_shape [3; 32; 32]%Z) (raw_X_test raw)
  && Nat.eqb (length (raw_X_train raw)) (length (raw_y_train raw))
  && Nat.eqb (length (raw_X_test raw)) (length (raw_y_test raw))
  && forallb in_0_9 (raw_y_train raw)
  && forallb in_0_9 (raw_y_test raw)
  && existsb (Z.eqb 9) (raw_y_train raw)
  && existsb (Z.eqb 9) (raw_y_test raw).

End More.

(** ** Exhaustive checks of float facts, run by the proofs *)

Module Checks.
Import Numpy.

(** Does adding [1.] to a float32 counter [n] times, starting from the
    counter [c] that stands for [k], stay on the integers? *)
Fixpoint counter_exact (n : nat) (c : spec_float) (k : Z) : bool :=
  match n with
  | O => same_float c (astype_float32 k)
  | S n' =>
      if same_float c (astype_float32 k)
      then counter_exact n' (add32 c f32_1) (k + 1)
      else false
  end.





End Checks.

(** * Properties *)

Import Numpy Keras Training Notebook.

(** ** Exceptions and nested arrays *)

Lemma mapM_total {A B : Type} (f : A -> option B) (g : A -> B) (l : list A) :
  (forall a, In a l -> f a = Some (g a)) -> Exn.mapM f l = Some (map g l).
Proof.
  induction l as [| a t IH]; intros H; simpl.
  - reflexivity.
  - rewrite (H a (or_introl eq_refl)), IH; auto.
    intros b Hb. apply H. now right.
Qed.

Lemma mapM_Forall2 {A B : Type} (f : A -> option B) (l : list A) (bs : list B) :
  Exn.mapM f l = Some bs -> Forall2 (fun a b => f a = Some b) l bs.
Proof.
  revert bs. induction l as [| a t IH]; intros bs H; simpl in H.
  - inversion H. constructor.
  - destruct (f a) as [b |] eqn:Fa; try discriminate.
    destruct (Exn.mapM f t) as [bs' |] eqn:Ft; try discriminate.
    inversion H; subst. constructor; auto.
Qed.

Lemma map4_map4 {A B C : Type} (f : A -> B) (g : B -> C) (X : nd4 A) :
  map4 g (map4 f X) = map4 (fun a => g (f a)) X.
Proof.
  unfold map4. rewrite map_map. apply map_ext; intros x3.
  rewrite map_map. apply map_ext; intros x2.
  rewrite map_map. apply map_ext; intros x1.
  apply map_map.
Qed.

Lemma map4_id_on {A : Type} (P : A -> Prop) (f : A -> A) (X : nd4 A) :
  (forall a, P a -> f a = a) -> Forall4 P X -> map4 f X = X.
Proof.
  intros Hf HX. unfold map4, Forall4 in *.
  rewrite <- (map_id X) at 2. apply map_ext_Forall.
  eapply Forall_impl; [| exact HX]. intros x3 H3.
  rewrite <- (map_id x3) at 2. apply map_ext_Forall.
  eapply Forall_impl; [| exact H3]. intros x2 H2.
  rewrite <- (map_id x2) at 2. apply map_ext_Forall.
  eapply Forall_impl; [| exact H2]. intros x1 H1.
  rewrite <- (map_id x1) at 2. apply map_ext_Forall.
  eapply Forall_impl; [| exact H1]. intros a Ha. now apply Hf.
Qed.

Lemma Forall4_map4 {A B : Type} (P : A -> Prop) (Q : B -> Prop) (f : A -> B)
    (X : nd4 A) :
  (forall a, P a -> Q (f a)) -> Forall4 P X -> Forall4 Q (map4 f X).
Proof.
  intros Hf HX. unfold map4, Forall4 in *.
  apply Forall_map. eapply Forall_impl; [| exact HX]. intros x3 H3.
  apply Forall_map. eapply Forall_impl; [| exact H3]. intros x2 H2.
  apply Forall_map. eapply Forall_impl; [| exact H2]. intros x1 H1.
  apply Forall_map. eapply Forall_impl; [| exact H1]. intros a Ha. now apply Hf.
Qed.

(** ** Pixel scaling in binary32 *)

(** A boolean property checked on 0..255 holds of every 8-bit value. *)
Lemma uint8_cases (P : Z -> bool) :
  forallb P (map Z.of_nat (seq 0 256)) = true ->
  forall x, (0 <= x <= 255)%Z -> P x = true.
Proof.
  intros H x Hx. rewrite forallb_forall in H. apply H.
  apply in_map_iff. exists (Z.to_nat x). split; [lia |].
  apply in_seq. lia.
Qed.

Lemma scale_in_unit_interval (x : Z) :
  (0 <= x <= 255)%Z -> in_unit_interval (scale x) = true.
Proof.
  apply (uint8_cases (fun x => in_unit_interval (scale x))).
  vm_compute. reflexivity.
Qed.

Lemma denormalize_scale (x : Z) :
  (0 <= x <= 255)%Z -> denormalize_elem (scale x) = x.
Proof.
  intros Hx.
  apply Z.eqb_eq.
  revert x Hx.
  apply (uint8_cases (fun x => Z.eqb (denormalize_elem (scale x)) x)).
  vm_compute. reflexivity.
Qed.

Lemma normalize_scale (X : nd4 Z) : normalize X = map4 scale X.
Proof. unfold normalize; cbv zeta. rewrite map4_map4. reflexivity. Qed.

(** C4: on an image array with elements in 0..255 the preprocessing is the
    element-wise binary32 quotient x / 255.0, every result lies in
    [0.0, 1.0], and the 8-bit value is recovered from the result (so the
    transform is injective on such arrays). *)
Theorem normalize_scales_into_unit_interval :
  forall X : nd4 Z,
    Forall4 (fun x => (0 <= x <= 255)%Z) X ->
    normalize X = map4 (fun x => true_divide32 (astype_float32 x) f32_255) X /\
    Forall4 (fun v => leb32 f32_0 v = true /\ leb32 v f32_1 = true) (normalize X) /\
    map4 denormalize_elem (normalize X) = X /\
    (forall Y : nd4 Z,
        Forall4 (fun y => (0 <= y <= 255)%Z) Y -> normalize X = normalize Y -> X = Y).
Proof.
  intros X HX.
  assert (Hback : forall Z0 : nd4 Z,
             Forall4 (fun x => (0 <= x <= 255)%Z) Z0 ->
             map4 denormalize_elem (normalize Z0) = Z0).
  { intros Z0 HZ. rewrite normalize_scale, map4_map4.
    apply map4_id_on with (P := fun x => (0 <= x <= 255)%Z); auto.
    intros a Ha. now apply denormalize_scale. }
  split; [apply normalize_scale |].
  split.
  - rewrite normalize_scale.
    apply Forall4_map4 with (P := fun x => (0 <= x <= 255)%Z); auto.
    intros a Ha. apply andb_prop. exact (scale_in_unit_interval a Ha).
  - split; [now apply Hback |].
    intros Y HY Heq.
    rewrite <- (Hback X HX), <- (Hback Y HY), Heq. reflexivity.
Qed.

Lemma normalize_scales_into_unit_interval_witness :
  Forall4 (fun x => (0 <= x <= 255)%Z) [[[[0; 37]; [128; 255]]]]%Z /\
  map4 denormalize_elem (normalize [[[[0; 37]; [128; 255]]]]%Z)
    = [[[[0; 37]; [128; 255]]]]%Z.
Proof.
  assert (H : Forall4 (fun x => (0 <= x <= 255)%Z) [[[[0; 37]; [128; 255]]]]%Z).
  { repeat constructor; lia. }
  split; [exact H |].
  exact (proj1 (proj2 (proj2 (normalize_scales_into_unit_interval _ H)))).
Defined.

(** ** One-hot encoding *)

Lemma fold_max_spec (t : list Z) (a : Z) :
  In (fold_left Z.max t a) (a :: t) /\
  Forall (fun l => (l <= fold_left Z.max t a)%Z) (a :: t).
Proof.
  revert a. induction t as [| b t IH]; intros a; simpl.
  - split; [now left | constructor; [lia | constructor]].
  - destruct (IH (Z.max a b)) as [Hin Hall].
    inversion Hall as [| ? ? Hab Ht]; subst.
    split.
    + simpl in Hin. destruct Hin as [Hin | Hin]; [| now right; right].
      destruct (Z.max_spec a b) as [[_ E] | [_ E]]; rewrite E in *; auto.
    + constructor; [lia |]. constructor; [lia | exact Ht].
Qed.

Lemma np_max_spec (y : list Z) (m : Z) :
  np_max y = Some m -> In m y /\ Forall (fun l => (l <= m)%Z) y.
Proof.
  destruct y as [| a t]; simpl; intros H; [discriminate |].
  inversion H; subst. apply fold_max_spec.
Qed.

Lemma np_max_total (y : list Z) : y <> [] -> exists m, np_max y = Some m.
Proof. destruct y; [congruence | intros _; simpl; eauto]. Qed.

Lemma update_length {A : Type} (l : list A) (i : nat) (v : A) :
  length (update l i v) = length l.
Proof.
  revert i. induction l as [| a t IH]; intros [| j]; simpl; auto.
Qed.

Lemma update_repeat {A : Type} (z v : A) (n i : nat) :
  (i < n)%nat ->
  update (repeat z n) i v = repeat z i ++ v :: repeat z (n - 1 - i).
Proof.
  revert i. induction n as [| n IH]; intros i Hi; [lia |].
  destruct i as [| j]; cbn [update repeat app].
  - replace (S n - 1 - 0)%nat with n by lia. reflexivity.
  - rewrite IH by lia.
    replace (S n - 1 - S j)%nat with (n - 1 - j)%nat by lia. reflexivity.
Qed.

Lemma one_hot_row_length (nb l : Z) (row : list spec_float) :
  one_hot_row nb l = Some row -> (0 <= nb)%Z /\ length row = Z.to_nat nb.
Proof.
  unfold one_hot_row, zeros, Exn.bind.
  destruct (nb <? 0)%Z eqn:Hnb; [discriminate |].
  apply Z.ltb_ge in Hnb. unfold setitem.
  rewrite repeat_length.
  destruct (_ && _); [| destruct (_ && _)]; intros H; inversion H; subst;
    try (rewrite update_length, repeat_length; auto).
Qed.

Lemma one_hot_row_shape (nb l : Z) :
  (0 <= l < nb)%Z ->
  one_hot_row nb l =
    Some (repeat zero64 (Z.to_nat l) ++ one64 :: repeat zero64 (Z.to_nat nb - 1 - Z.to_nat l)).
Proof.
  intros H. unfold one_hot_row, zeros, Exn.bind.
  replace (nb <? 0)%Z with false by (symmetry; apply Z.ltb_ge; lia).
  unfold setitem. rewrite repeat_length.
  replace ((0 <=? l)%Z && (l <? Z.of_nat (Z.to_nat nb))%Z) with true.
  - rewrite update_repeat by lia. reflexivity.
  - symmetry. apply andb_true_intro. split; [apply Z.leb_le | apply Z.ltb_lt]; lia.
Qed.

Lemma argmax_loop_after_one (k ix i : nat) :
  argmax_loop one64 ix i (repeat zero64 k) = ix.
Proof.
  revert i. induction k as [| k IH]; intros i; simpl; auto.
Qed.

Lemma argmax_loop_zeros_then_one (n k ix i : nat) :
  argmax_loop zero64 ix i (repeat zero64 n ++ one64 :: repeat zero64 k) = (i + n)%nat.
Proof.
  revert ix i. induction n as [| n IH]; intros ix i; simpl.
  - rewrite argmax_loop_after_one. lia.
  - rewrite IH. lia.
Qed.

Lemma argmax_one_hot (n k : nat) :
  argmax (repeat zero64 n ++ one64 :: repeat zero64 k) = Some (Z.of_nat n).
Proof.
  destruct n as [| n]; simpl.
  - now rewrite argmax_loop_after_one.
  - rewrite argmax_loop_zeros_then_one. f_equal.
Qed.

Lemma count_eq_repeat_same (v : spec_float) (n : nat) :
  SFeqb v zero64 = true -> count_eq v (repeat zero64 n) = n.
Proof.
  intros H. unfold count_eq. induction n as [| n IH]; simpl; auto.
  rewrite H. simpl. now rewrite IH.
Qed.

Lemma count_eq_repeat_other (v : spec_float) (n : nat) :
  SFeqb v zero64 = false -> count_eq v (repeat zero64 n) = 0%nat.
Proof.
  intros H. unfold count_eq. induction n as [| n IH]; simpl; auto.
  now rewrite H.
Qed.

Lemma count_eq_app (v : spec_float) (l1 l2 : list spec_float) :
  count_eq v (l1 ++ l2) = (count_eq v l1 + count_eq v l2)%nat.
Proof. unfold count_eq. now rewrite filter_app, length_app. Qed.

Lemma one_hot_counts (n k : nat) :
  let row := repeat zero64 n ++ one64 :: repeat zero64 k in
  count_eq one64 row = 1%nat /\ (count_eq zero64 row + 1 = length row)%nat.
Proof.
  cbv zeta. rewrite !count_eq_app.
  change (one64 :: repeat zero64 k) with ([one64] ++ repeat zero64 k).
  rewrite !count_eq_app, length_app, length_app, !repeat_length.
  rewrite !count_eq_repeat_other by reflexivity.
  rewrite !count_eq_repeat_same by reflexivity.
  split; [reflexivity | simpl; lia].
Qed.

(** C5: for labels in 0..9 the encoding succeeds, a row's arg-max is the
    label it encodes, and a row holds 1.0 once and 0.0 everywhere else. *)
Theorem one_hot_argmax_round_trip :
  forall y : list Z,
    y <> [] ->
    Forall (fun l => (0 <= l <= 9)%Z) y ->
    exists Y,
      to_categorical y = Some Y /\
      Forall2 (fun l row =>
                 argmax row = Some l /\
                 count_eq one64 row = 1%nat /\
                 (count_eq zero64 row + 1 = length row)%nat) y Y.
Proof.
  intros y Hne Hy.
  destruct (np_max_total y Hne) as [m Hm].
  destruct (np_max_spec _ _ Hm) as [_ Hle].
  set (g := fun l : Z =>
              repeat zero64 (Z.to_nat l) ++
              one64 :: repeat zero64 (Z.to_nat (m + 1) - 1 - Z.to_nat l)).
  exists (map g y). split.
  - unfold to_categorical, Exn.bind. rewrite Hm.
    apply mapM_total. intros l Hl.
    rewrite Forall_forall in Hy, Hle.
    specialize (Hy l Hl). specialize (Hle l Hl).
    apply one_hot_row_shape. lia.
  - clear Hm Hle Hne. induction Hy as [| l t Hl Ht IH]; simpl; constructor; auto.
    unfold g. rewrite argmax_one_hot, Z2Nat.id by lia.
    split; [reflexivity | apply one_hot_counts].
Qed.

Lemma one_hot_argmax_round_trip_witness :
  exists Y,
    to_categorical [3; 0; 9]%Z = Some Y /\
    Forall2 (fun l row =>
               argmax row = Some l /\
               count_eq one64 row = 1%nat /\
               (count_eq zero64 row + 1 = length row)%nat) [3; 0; 9]%Z Y.
Proof.
  apply (one_hot_argmax_round_trip [3; 0; 9]%Z).
  - discriminate.
  - repeat constructor; lia.
Defined.

(** ** Width of the encoded labels *)

Lemma to_categorical_width (y : list Z) (Y : list (list spec_float)) :
  to_categorical y = Some Y ->
  exists m,
    np_max y = Some m /\
    Forall (fun row => Z.of_nat (length row) = (m + 1)%Z) Y /\
    shape1 Y = (m + 1)%Z.
Proof.
  unfold to_categorical, Exn.bind.
  destruct (np_max y) as [m |] eqn:Hm; [| discriminate].
  intros HY. exists m. split; [reflexivity |].
  apply mapM_Forall2 in HY.
  assert (Hrows : Forall (fun row => Z.of_nat (length row) = (m + 1)%Z) Y).
  { clear Hm. induction HY as [| l row t rows Hrow _ IH]; constructor; auto.
    destruct (one_hot_row_length _ _ _ Hrow) as [Hnb Hlen]. rewrite Hlen. lia. }
  split; [exact Hrows |].
  destruct HY as [| l row t rows Hrow _]; [discriminate |].
  simpl. now inversion Hrows.
Qed.

Lemma preprocess_inv (raw : RawData) (d : Data) :
  preprocess raw = Some d ->
  to_categorical (raw_y_train raw) = Some (y_train d) /\
  to_categorical (raw_y_test raw) = Some (y_test d) /\
  num_classes d = shape1 (y_test d) /\
  X_train d = normalize (raw_X_train raw) /\
  X_test d = normalize (raw_X_test raw).
Proof.
  unfold preprocess, Exn.bind.
  destruct (to_categorical (raw_y_train raw)) as [Ytr |]; [| discriminate].
  destruct (to_categorical (raw_y_test raw)) as [Yte |]; [| discriminate].
  intros H. inversion H; subst; simpl. auto.
Qed.

Lemma NoDup_upto (n : nat) : NoDup (map Z.of_nat (seq 0 n)).
Proof.
  apply Finite.Injective_map_NoDup; [| apply seq_NoDup].
  intros a b. apply Nat2Z.inj.
Qed.

Lemma distinct_classes_contiguous (y : list Z) (m : Z) :
  (0 <= m + 1)%Z ->
  (forall k, In k y <-> (0 <= k <= m)%Z) ->
  Spec.distinct_classes y = (m + 1)%Z.
Proof.
  intros Hm H. unfold Spec.distinct_classes.
  assert (P : Permutation (nodup Z.eq_dec y) (map Z.of_nat (seq 0 (Z.to_nat (m + 1))))).
  { apply NoDup_Permutation; [apply NoDup_nodup | apply NoDup_upto |].
    intros k. rewrite nodup_In, H, in_map_iff. split.
    - intros Hk. exists (Z.to_nat k). split; [lia | apply in_seq; lia].
    - intros [i [<- Hi]]. apply in_seq in Hi. lia. }
  rewrite (Permutation_length P), length_map, length_seq. lia.
Qed.

Lemma np_max_of_domain (y : list Z) (m : Z) :
  (forall k, In k y <-> (0 <= k <= m)%Z) -> (0 <= m)%Z -> np_max y = Some m.
Proof.
  intros Hdom Hm.
  assert (Hne : y <> []).
  { intros ->. apply (proj2 (Hdom m)). lia. }
  destruct (np_max_total y Hne) as [m' Hm'].
  destruct (np_max_spec y m' Hm') as [Hin Hle]. rewrite Forall_forall in Hle.
  apply Hdom in Hin. assert (Hmy : In m y) by (apply Hdom; lia).
  specialize (Hle m Hmy). rewrite Hm'. f_equal. lia.
Qed.

(** C6: when the label domain starts at 0 and is contiguous (the test
    labels observed are exactly 0..m), every encoded test label vector and
    the class count are as wide as the number of distinct classes observed
    in the test split; so is every encoded training label vector when the
    training split observes the same domain. *)
Theorem label_width_is_distinct_test_classes :
  forall (raw : RawData) (d : Data) (m : Z),
    preprocess raw = Some d ->
    (forall k, In k (raw_y_test raw) <-> (0 <= k <= m)%Z) ->
    Forall (fun row => Z.of_nat (length row) = Spec.distinct_classes (raw_y_test raw))
           (y_test d) /\
    num_classes d = Spec.distinct_classes (raw_y_test raw) /\
    ((forall k, In k (raw_y_train raw) <-> (0 <= k <= m)%Z) ->
     Forall (fun row => Z.of_nat (length row) = Spec.distinct_classes (raw_y_test raw))
            (y_train d)).
Proof.
  intros raw d m H Hdom.
  destruct (preprocess_inv raw d H) as (Htr & Hte & Hnc & _).
  destruct (to_categorical_width _ _ Hte) as (mte & Hmte & Hrte & Hwte).
  assert (Hm : (0 <= m)%Z).
  { destruct (np_max_spec _ _ Hmte) as [Hin _]. apply Hdom in Hin. lia. }
  rewrite (np_max_of_domain _ m Hdom Hm) in Hmte. inversion Hmte; subst mte.
  rewrite (distinct_classes_contiguous _ m) by (auto; lia).
  split; [exact Hrte |]. split; [congruence |].
  intros Htrain.
  destruct (to_categorical_width _ _ Htr) as (mtr & Hmtr & Hrtr & _).
  rewrite (np_max_of_domain _ m Htrain Hm) in Hmtr. inversion Hmtr; subst mtr.
  exact Hrtr.
Qed.

Lemma label_width_is_distinct_test_classes_witness :
  Forall (fun row => Z.of_nat (length row)
                     = Spec.distinct_classes (raw_y_test Samples.three_classes))
         (y_test Samples.three_classes_data) /\
  num_classes Samples.three_classes_data
    = Spec.distinct_classes (raw_y_test Samples.three_classes) /\
  ((forall k, In k (raw_y_train Samples.three_classes) <-> (0 <= k <= 2)%Z) ->
   Forall (fun row => Z.of_nat (length row)
                      = Spec.distinct_classes (raw_y_test Samples.three_classes))
          (y_train Samples.three_classes_data)).
Proof.
  apply (label_width_is_distinct_test_classes Samples.three_classes
           Samples.three_classes_data 2).
  - reflexivity.
  - intros k. simpl. lia.
Defined.

(** ** The two layer stacks *)

Lemma num_classes_cifar (raw : RawData) (d : Data) :
  preprocess raw = Some d ->
  Forall (fun l => (0 <= l <= 9)%Z) (raw_y_test raw) ->
  In 9%Z (raw_y_test raw) ->
  num_classes d = 10%Z.
Proof.
  intros H Hr H9.
  destruct (preprocess_inv _ _ H) as (_ & Hte & Hnc & _).
  destruct (to_categorical_width _ _ Hte) as (m & Hm & _ & Hw).
  destruct (np_max_spec _ _ Hm) as [Hin Hle].
  rewrite Forall_forall in Hr, Hle.
  specialize (Hr m Hin). specialize (Hle 9%Z H9).
  rewrite Hnc, Hw. lia.
Qed.

(** [add] calls the new layer on the output of the layer before it. *)
Lemma add_feeds_previous_output (m m' : Sequential) (l : Layer) (prev : shape) :
  outputs m = Some prev ->
  add m l = Some m' ->
  exists o,
    get_output_shape_for l prev = Some o /\
    layers m' = layers m ++ [l] /\
    output_shapes m' = output_shapes m ++ [o] /\
    outputs m' = Some o.
Proof.
  intros Hprev. unfold add, Exn.bind. rewrite Hprev.
  destruct (get_output_shape_for l prev) as [o |]; [| discriminate].
  intros H. inversion H; subst; clear H. exists o.
  unfold outputs; simpl. repeat split; auto.
  destruct (layers m ++ [l]) eqn:E.
  - now apply app_eq_nil in E.
  - now rewrite last_last.
Qed.

(** The two stacks as [model.summary()] shows them. *)
Lemma shallow_model_value (num_classes : Z) :
  shallow_model num_classes =
    Some {| layers :=
              [ Convolution2D 32 3 3 (Some [3; 32; 32]%Z) same relu (Some (maxnorm 3));
                Dropout 0.2;
                Convolution2D 32 3 3 None same relu (Some (maxnorm 3));
                MaxPooling2D 2 2;
                Flatten;
                Dense 512 relu (Some (maxnorm 3));
                Dropout 0.5;
                Dense num_classes softmax None ];
            inputs := Some [3; 32; 32]%Z;
            output_shapes :=
              [[32; 32; 32]; [32; 32; 32]; [32; 32; 32]; [32; 16; 16]; [8192];
               [512]; [512]; [num_classes]]%Z |}.
Proof. vm_compute. reflexivity. Qed.

Lemma deep_model_value (num_classes : Z) :
  deep_model num_classes =
    Some {| layers :=
              [ Convolution2D 32 3 3 (Some [3; 32; 32]%Z) same relu None;
                Dropout 0.2;
                Convolution2D 32 3 3 None same relu None;
                MaxPooling2D 2 2;
                Convolution2D 64 3 3 None same relu None;
                Dropout 0.2;
                Convolution2D 64 3 3 None same relu None;
                MaxPooling2D 2 2;
                Convolution2D 128 3 3 None same relu None;
                Dropout 0.2;
                Convolution2D 128 3 3 None same relu None;
                MaxPooling2D 2 2;
                Flatten;
                Dropout 0.2;
                Dense 1024 relu (Some (maxnorm 3));
                Dropout 0.2;
                Dense 512 relu (Some (maxnorm 3));
                Dropout 0.2;
                Dense num_classes softmax None ];
            inputs := Some [3; 32; 32]%Z;
            output_shapes :=
              [[32; 32; 32]; [32; 32; 32]; [32; 32; 32]; [32; 16; 16];
               [64; 16; 16]; [64; 16; 16]; [64; 16; 16]; [64; 8; 8];
               [128; 8; 8]; [128; 8; 8]; [128; 8; 8]; [128; 4; 4];
               [2048]; [2048]; [1024]; [1024]; [512]; [512]; [num_classes]]%Z |}.
Proof. vm_compute. reflexivity. Qed.

(** C1: on the CIFAR-10 labels (test labels in 0..9 with 9 present) the
    simple model is the eight-layer sequence of section 4.2, its first layer
    takes a 3x32x32 input, and every layer receives the output of the layer
    before it. *)
Theorem shallow_model_is_spec_sequence :
  forall (raw : RawData) (d : Data),
    preprocess raw = Some d ->
    Forall (fun l => (0 <= l <= 9)%Z) (raw_y_test raw) ->
    In 9%Z (raw_y_test raw) ->
    exists model,
      shallow_model (num_classes d) = Some model /\
      map Spec.describe (layers model) = Spec.shallow_sequence /\
      inputs model = Some [3; 32; 32]%Z /\
      input_shapes model =
        [[3; 32; 32]; [32; 32; 32]; [32; 32; 32]; [32; 32; 32]; [32; 16; 16];
         [8192]; [512]; [512]]%Z /\
      output_shapes model =
        [[32; 32; 32]; [32; 32; 32]; [32; 32; 32]; [32; 16; 16]; [8192];
         [512]; [512]; [10]]%Z /\
      Forall2 (fun l io => get_output_shape_for l (fst io) = Some (snd io))
        (layers model) (combine (input_shapes model) (output_shapes model)).
Proof.
  intros raw d H Hr H9.
  rewrite (num_classes_cifar _ _ H Hr H9), shallow_model_value.
  eexists. split; [reflexivity |].
  cbn [layers inputs output_shapes input_shapes removelast].
  repeat split. repeat constructor.
Qed.

Lemma shallow_model_is_spec_sequence_witness :
  exists model,
    shallow_model (num_classes Samples.tiny_data) = Some model /\
    map Spec.describe (layers model) = Spec.shallow_sequence /\
    inputs model = Some [3; 32; 32]%Z /\
    input_shapes model =
      [[3; 32; 32]; [32; 32; 32]; [32; 32; 32]; [32; 32; 32]; [32; 16; 16];
       [8192]; [512]; [512]]%Z /\
    output_shapes model =
      [[32; 32; 32]; [32; 32; 32]; [32; 32; 32]; [32; 16; 16]; [8192];
       [512]; [512]; [10]]%Z /\
    Forall2 (fun l io => get_output_shape_for l (fst io) = Some (snd io))
      (layers model) (combine (input_shapes model) (output_shapes model)).
Proof.
  apply (shallow_model_is_spec_sequence Samples.tiny Samples.tiny_data).
  - reflexivity.
  - repeat constructor; lia.
  - simpl. auto.
Defined.

(** C2: whatever the class count, the larger model builds on a 3x32x32
    input; its first twelve layers are three blocks
    Conv(k), Dropout(0.2), Conv(k), MaxPool(2x2) with k = 32, 64, 128, and
    the block outputs are 32x16x16, 64x8x8 and 128x4x4. *)
Theorem deep_model_block_shapes :
  forall num_classes : Z,
    exists model,
      deep_model num_classes = Some model /\
      inputs model = Some [3; 32; 32]%Z /\
      map Spec.describe (firstn 12 (layers model)) =
        Spec.block 32 ++ Spec.block 64 ++ Spec.block 128 /\
      nth_error (output_shapes model) 3 = Some [32; 16; 16]%Z /\
      nth_error (output_shapes model) 7 = Some [64; 8; 8]%Z /\
      nth_error (output_shapes model) 11 = Some [128; 4; 4]%Z /\
      firstn 12 (output_shapes model) =
        [[32; 32; 32]; [32; 32; 32]; [32; 32; 32]; [32; 16; 16];
         [64; 16; 16]; [64; 16; 16]; [64; 16; 16]; [64; 8; 8];
         [128; 8; 8]; [128; 8; 8]; [128; 8; 8]; [128; 4; 4]]%Z.
Proof.
  intros num_classes. rewrite deep_model_value.
  eexists. split; [reflexivity |].
  cbn [layers inputs output_shapes].
  repeat split.
Qed.

(** ** The batch loop *)

Import Plan.

Lemma make_batches_bounds (size batch_size : nat) :
  batch_size <> 0%nat ->
  make_batches size batch_size = Some (batch_bounds size batch_size).
Proof. destruct batch_size; [congruence | reflexivity]. Qed.

Lemma firstn_slice {A : Type} (l : list A) (s e : nat) :
  (s <= e)%nat -> firstn s l ++ slice l s e = firstn e l.
Proof.
  unfold slice. revert l e. induction s as [| s IH]; intros l e Hse.
  - simpl. now rewrite Nat.sub_0_r.
  - destruct l as [| a t].
    + simpl. now rewrite !firstn_nil.
    + destruct e as [| e]; [lia |]. simpl. f_equal. apply IH. lia.
Qed.

Lemma slice_length {A : Type} (l : list A) (s e : nat) :
  (e <= length l)%nat -> length (slice l s e) = (e - s)%nat.
Proof.
  intros H. unfold slice. rewrite length_firstn, length_skipn. lia.
Qed.

(** The slices of the first [k] index pairs rebuild a prefix of the order. *)
Lemma concat_cut_prefix {A : Type} (order : list A) (size b k : nat) :
  concat (map (fun i => slice order (i * b) (Nat.min size ((i + 1) * b))) (seq 0 k))
  = firstn (Nat.min size (k * b)) order.
Proof.
  induction k as [| k IH].
  - simpl. now rewrite Nat.min_0_r.
  - rewrite seq_S, map_app, concat_app, IH.
    cbn [map concat Nat.add]. rewrite app_nil_r.
    replace ((k + 1) * b)%nat with (S k * b)%nat by (f_equal; lia).
    assert (Hk : (k * b <= S k * b)%nat) by (cbn [Nat.mul]; lia).
    destruct (Nat.le_gt_cases (k * b) size) as [Hle | Hgt].
    + rewrite (Nat.min_r size (k * b)) by lia.
      apply firstn_slice. apply Nat.min_glb; lia.
    + rewrite (Nat.min_l size (k * b)) by lia.
      rewrite (Nat.min_l size (S k * b)) by lia.
      unfold slice. replace (size - k * b)%nat with 0%nat by lia.
      cbn [firstn]. apply app_nil_r.
Qed.

Lemma ceil_covers (size b : nat) :
  b <> 0%nat -> (size <= (size + b - 1) / b * b)%nat.
Proof.
  intros Hb.
  pose proof (Nat.div_mod_eq (size + b - 1) b) as E.
  pose proof (Nat.mod_upper_bound (size + b - 1) b Hb) as U.
  nia.
Qed.

Lemma ceil_uneven (size b : nat) :
  b <> 0%nat -> (size mod b <> 0)%nat -> ((size + b - 1) / b = size / b + 1)%nat.
Proof.
  intros Hb Hr.
  pose proof (Nat.div_mod_eq size b) as E.
  pose proof (Nat.mod_upper_bound size b Hb) as U.
  symmetry. apply (Nat.div_unique _ _ _ (size mod b - 1)); lia.
Qed.

Lemma ceil_even (size b : nat) :
  b <> 0%nat -> (size mod b = 0)%nat -> ((size + b - 1) / b = size / b)%nat.
Proof.
  intros Hb Hr.
  pose proof (Nat.div_mod_eq size b) as E.
  symmetry. apply (Nat.div_unique _ _ _ (b - 1)); lia.
Qed.

(** Cutting an order of [size] rows rebuilds the order. *)
Lemma concat_cut {A : Type} (order : list A) (size b : nat) :
  b <> 0%nat -> length order = size ->
  concat (cut order (batch_bounds size b)) = order.
Proof.
  intros Hb Hlen. unfold cut, batch_bounds, range.
  rewrite map_map. simpl. rewrite concat_cut_prefix.
  rewrite Nat.min_l by (now apply ceil_covers).
  rewrite <- Hlen. apply firstn_all.
Qed.

Lemma cut_uneven {A : Type} (order : list A) (size b : nat) :
  b <> 0%nat -> (size mod b <> 0)%nat -> length order = size ->
  exists full last,
    cut order (batch_bounds size b) = full ++ [last] /\
    length full = (size / b)%nat /\
    Forall (fun ids => length ids = b) full /\
    length last = (size mod b)%nat.
Proof.
  intros Hb Hr Hlen. unfold cut, batch_bounds, range.
  rewrite map_map. simpl fst; simpl snd.
  rewrite ceil_uneven by assumption.
  rewrite Nat.add_1_r, seq_S, map_app. simpl.
  pose proof (Nat.div_mod_eq size b) as E.
  pose proof (Nat.mod_upper_bound size b Hb) as U.
  eexists. eexists. split; [reflexivity |].
  split; [now rewrite length_map, length_seq |].
  split.
  - apply Forall_map, Forall_forall. intros i Hi. apply in_seq in Hi.
    rewrite slice_length by (rewrite Hlen; apply Nat.le_min_l).
    rewrite Nat.min_r by nia. nia.
  - rewrite slice_length by (rewrite Hlen; apply Nat.le_min_l).
    rewrite Nat.min_l by nia. nia.
Qed.

Lemma cut_even {A : Type} (order : list A) (size b : nat) :
  b <> 0%nat -> (size mod b = 0)%nat -> length order = size ->
  length (cut order (batch_bounds size b)) = (size / b)%nat /\
  Forall (fun ids => length ids = b) (cut order (batch_bounds size b)).
Proof.
  intros Hb Hr Hlen. unfold cut, batch_bounds, range.
  rewrite map_map. simpl fst; simpl snd.
  rewrite ceil_even by assumption.
  pose proof (Nat.div_mod_eq size b) as E.
  split; [now rewrite length_map, length_seq |].
  apply Forall_map, Forall_forall. intros i Hi. apply in_seq in Hi.
  rewrite slice_length by (rewrite Hlen; apply Nat.le_min_l).
  rewrite Nat.min_r by nia. nia.
Qed.

(** ** The training loop against its plan *)

Import Plan.

Lemma steps_succ_r (k : nat) (o : SGD) :
  steps (S k) o = steps k (step_iterations o).
Proof. induction k as [| k IH]; [reflexivity |]. simpl in *. now rewrite IH. Qed.

Lemma steps_add (j k : nat) (o : SGD) : steps j (steps k o) = steps (j + k) o.
Proof. induction j as [| j IH]; simpl; [reflexivity | now rewrite IH]. Qed.

Lemma batch_bounds_length (size b : nat) :
  length (batch_bounds size b) = ((size + b - 1) / b)%nat.
Proof. unfold batch_bounds, range. now rewrite length_map, length_seq. Qed.

Lemma batch_bounds_not_nil (size b : nat) :
  b <> 0%nat -> size <> 0%nat -> batch_bounds size b <> [].
Proof.
  intros Hb Hs Hnil. apply (f_equal (@length _)) in Hnil.
  rewrite batch_bounds_length in Hnil. simpl in Hnil.
  pose proof (ceil_covers size b Hb) as H. rewrite Hnil in H. simpl in H. lia.
Qed.

Section FitLemmas.
Context {E : Engine}.

(** The batch loop makes the planned updates of its epoch, when [rate]
    gives the optimiser's rate for the updates [k], [k + 1], ... *)
Lemma batch_loop_plan (rate : nat -> spec_float) (e : nat) (bounds : list (nat * nat)) :
  forall (st : TrainState) (j k : nat),
    (forall i, (i < length bounds)%nat ->
               current_lr (steps i (optimizer st)) = rate (k + i)%nat) ->
    vars (batch_loop st bounds) =
      replay (plan_batches rate (index_array st) e j k bounds) (vars st) /\
    optimizer (batch_loop st bounds) = steps (length bounds) (optimizer st) /\
    index_array (batch_loop st bounds) = index_array st /\
    gen (batch_loop st bounds) = gen st.
Proof.
  induction bounds as [| b rest IH]; intros st j k Hrate.
  - simpl. auto.
  - cbn [batch_loop plan_batches length].
    destruct (IH (train_batch st b) (S j) (S k)) as (Hv & Ho & Hi & Hg).
    { intros i Hi. cbn [train_batch optimizer].
      rewrite <- steps_succ_r, (Hrate (S i)) by (simpl; lia). f_equal. lia. }
    rewrite Hv, Ho, Hi, Hg. cbn [train_batch vars optimizer index_array gen].
    repeat split.
    + unfold replay at 2. cbn [fold_left rate_of rows_of].
      pose proof (Hrate 0%nat ltac:(simpl; lia)) as H0.
      rewrite Nat.add_0_r in H0. cbn [steps] in H0. rewrite <- H0. reflexivity.
    + symmetry. exact (steps_succ_r _ _).
Qed.

Lemma run_epoch_plan (rate : nat -> spec_float) (size b : nat) (st : TrainState)
    (e k : nat) :
  b <> 0%nat -> size <> 0%nat ->
  (forall i, (i < length (batch_bounds size b))%nat ->
             current_lr (steps i (optimizer st)) = rate (k + i)%nat) ->
  exists st',
    run_epoch size b st = Some st' /\
    index_array st' = fst (np_shuffle (gen st) (index_array st)) /\
    gen st' = snd (np_shuffle (gen st) (index_array st)) /\
    optimizer st' = steps (length (batch_bounds size b)) (optimizer st) /\
    vars st' =
      carry_out b [plan_batches rate (index_array st') e 0 k (batch_bounds size b)]
                (vars st).
Proof.
  intros Hb Hs Hrate. unfold run_epoch.
  destruct (np_shuffle (gen st) (index_array st)) as [shuffled g] eqn:Hsh.
  rewrite (make_batches_bounds size b Hb). cbn [Exn.bind].
  pose proof (batch_bounds_not_nil size b Hb Hs) as Hne.
  destruct (batch_bounds size b) as [| b0 rest] eqn:Hbb; [congruence |].
  eexists. split; [reflexivity |].
  match goal with
  | |- context [batch_loop ?s ?bs] =>
      destruct (batch_loop_plan rate e bs s 0 k Hrate) as (Hv & Ho & Hi & Hg)
  end.
  unfold validate. cbn [vars optimizer index_array gen fst snd].
  rewrite Hv, Ho, Hi, Hg. cbn [vars optimizer index_array gen fst snd carry_out fold_left].
  auto.
Qed.

Lemma epoch_loop_plan (rate : nat -> spec_float) (size b : nat) (remaining : nat) :
  b <> 0%nat -> size <> 0%nat ->
  forall (st : TrainState) (e k : nat),
    (forall i, (i < remaining * length (batch_bounds size b))%nat ->
               current_lr (steps i (optimizer st)) = rate (k + i)%nat) ->
    exists st',
      epoch_loop size b st remaining = Some st' /\
      optimizer st' = steps (remaining * length (batch_bounds size b)) (optimizer st) /\
      vars st' =
        carry_out b (plan_epochs rate (batch_bounds size b) e k
                       (epoch_orders remaining (gen st) (index_array st)))
                  (vars st).
Proof.
  intros Hb Hs. induction remaining as [| r IH]; intros st e k Hrate.
  - exists st. simpl. auto.
  - destruct (run_epoch_plan rate size b st e k Hb Hs) as (st1 & Hrun & Hidx & Hgen & Hopt & Hv1).
    { intros i Hi. apply Hrate. simpl. lia. }
    destruct (IH st1 (S e) (k + length (batch_bounds size b))%nat)
      as (st' & Hloop & Hopt' & Hv').
    { intros i Hi. rewrite Hopt, steps_add, (Hrate (i + length (batch_bounds size b))%nat)
        by (simpl; lia).
      f_equal. lia. }
    exists st'. cbn [epoch_loop]. rewrite Hrun. cbn [Exn.bind].
    split; [exact Hloop |]. split.
    + rewrite Hopt', Hopt, steps_add. f_equal. simpl. lia.
    + rewrite Hv', Hv1. cbn [epoch_orders]. rewrite Hgen, Hidx.
      destruct (np_shuffle (gen st) (index_array st)) as [idx' g'].
      cbn [fst snd plan_epochs]. unfold carry_out. cbn [fold_left]. reflexivity.
Qed.

(** A run of [fit] makes the planned updates, in order, on the variables it
    was given. *)
Lemma fit_plan (rate : nat -> spec_float) (size nb_epoch b : nat)
    (v : variables * stream) (o : SGD) (g : generator) :
  b <> 0%nat -> size <> 0%nat ->
  (forall i, (i < nb_epoch * length (batch_bounds size b))%nat ->
             current_lr (steps i o) = rate i) ->
  exists st,
    fit size nb_epoch b v o g = Some st /\
    optimizer st = steps (nb_epoch * length (batch_bounds size b)) o /\
    vars st = carry_out b (plan rate size b (epoch_orders nb_epoch g (range size))) v.
Proof.
  intros Hb Hs Hrate. unfold fit, plan.
  match goal with
  | |- context [epoch_loop _ _ ?s _] =>
      destruct (epoch_loop_plan rate size b nb_epoch Hb Hs s 0 0 Hrate) as (st & H)
  end.
  exists st. exact H.
Qed.

Lemma epoch_orders_length (n : nat) :
  forall (g : generator) (idx : list nat), length (epoch_orders n g idx) = n.
Proof.
  induction n as [| n IH]; intros g idx; [reflexivity |].
  cbn [epoch_orders]. destruct (np_shuffle g idx). simpl. now rewrite IH.
Qed.

Lemma epoch_orders_perm (n : nat) :
  forall (g : generator) (idx : list nat),
    Forall (fun order => Permutation order idx) (epoch_orders n g idx).
Proof.
  induction n as [| n IH]; intros g idx; [constructor |].
  cbn [epoch_orders]. pose proof (np_shuffle_perm g idx) as P.
  destruct (np_shuffle g idx) as [idx' g']. simpl in P. constructor; [exact P |].
  eapply Forall_impl; [| apply IH]. intros o Ho. simpl in Ho.
  now rewrite Ho.
Qed.

(** The frame of the loops: the generator moves by the shuffles only. *)
Lemma batch_loop_frame (bounds : list (nat * nat)) :
  forall st : TrainState,
    gen (batch_loop st bounds) = gen st /\
    index_array (batch_loop st bounds) = index_array st.
Proof.
  induction bounds as [| x bs IH]; intros st; [auto |].
  cbn [batch_loop]. destruct (IH (train_batch st x)) as [A B].
  rewrite A, B. auto.
Qed.

Lemma run_epoch_generator (size b : nat) (st st' : TrainState) :
  run_epoch size b st = Some st' ->
  (index_array st', gen st') = np_shuffle (gen st) (index_array st).
Proof.
  unfold run_epoch.
  destruct (np_shuffle (gen st) (index_array st)) as [shuffled g'].
  destruct (make_batches size b) as [bounds |]; [| discriminate].
  cbn [Exn.bind]. destruct bounds as [| b0 rest]; [discriminate |].
  intros H. injection H as <-.
  match goal with
  | |- context [batch_loop ?s ?bs] => destruct (batch_loop_frame bs s) as [A B]
  end.
  unfold validate. cbn [gen index_array]. rewrite A, B. reflexivity.
Qed.

Lemma epoch_loop_generator (size b : nat) (remaining : nat) :
  forall (st st' : TrainState),
    epoch_loop size b st remaining = Some st' ->
    (gen st', index_array st') = More.shuffles remaining (gen st) (index_array st).
Proof.
  induction remaining as [| r IH]; intros st st' H.
  - inversion H; subst. reflexivity.
  - cbn [epoch_loop] in H.
    destruct (run_epoch size b st) as [st1 |] eqn:H1; [| discriminate].
    cbn [Exn.bind] in H. rewrite (IH st1 st' H). cbn [More.shuffles].
    apply run_epoch_generator in H1. rewrite <- H1. reflexivity.
Qed.

End FitLemmas.

(** ** The plan, read *)

Lemma plan_batches_rows (rate : nat -> spec_float) (order : list nat) (e : nat)
    (bounds : list (nat * nat)) :
  forall j k, map rows_of (plan_batches rate order e j k bounds) = cut order bounds.
Proof.
  induction bounds as [| b rest IH]; intros j k; simpl; auto.
  now rewrite IH.
Qed.

Lemma plan_batches_length (rate : nat -> spec_float) (order : list nat) (e : nat)
    (bounds : list (nat * nat)) :
  forall j k, length (plan_batches rate order e j k bounds) = length bounds.
Proof.
  induction bounds as [| b rest IH]; intros j k; simpl; auto.
Qed.

Lemma plan_batches_nth (rate : nat -> spec_float) (order : list nat) (e : nat)
    (bounds : list (nat * nat)) :
  forall j k i u,
    nth_error (plan_batches rate order e j k bounds) i = Some u ->
    epoch_of u = e /\ batch_of u = (j + i)%nat /\ rate_of u = rate (k + i)%nat.
Proof.
  induction bounds as [| b rest IH]; intros j k i u H.
  - destruct i; discriminate.
  - destruct i as [| i]; simpl in H.
    + inversion H; subst; simpl. rewrite !Nat.add_0_r. auto.
    + apply IH in H. destruct H as (He & Hb & Hr).
      rewrite He, Hb, Hr. split; [reflexivity |]. split; [lia |].
      replace (S k + i)%nat with (k + S i)%nat by lia. reflexivity.
Qed.

(** The batches of epoch [j] are the pieces of the [j]-th order. *)
Lemma epoch_batches_plan (rate : nat -> spec_float) (bounds : list (nat * nat))
    (orders : list (list nat)) :
  forall (e0 k j : nat) (order : list nat),
    nth_error orders j = Some order ->
    epoch_batches j (plan_epochs rate bounds e0 k orders) = cut order bounds.
Proof.
  induction orders as [| first rest IH]; intros e0 k j order Hj.
  - destruct j; discriminate.
  - unfold epoch_batches in *. destruct j as [| j]; simpl in Hj |- *.
    + inversion Hj; subst. apply plan_batches_rows.
    + now apply IH.
Qed.

Lemma plan_epochs_length (rate : nat -> spec_float) (bounds : list (nat * nat))
    (orders : list (list nat)) :
  forall e0 k,
    length (plan_epochs rate bounds e0 k orders) = length orders /\
    length (concat (plan_epochs rate bounds e0 k orders))
    = (length orders * length bounds)%nat.
Proof.
  induction orders as [| order rest IH]; intros e0 k; simpl; auto.
  destruct (IH (S e0) (k + length bounds)%nat) as [A B].
  now rewrite length_app, plan_batches_length, A, B.
Qed.

(** Update [i] of a plan belongs to epoch [i / B], is batch [i mod B] of it
    and uses [rate i]. *)
Lemma plan_epochs_nth (rate : nat -> spec_float) (bounds : list (nat * nat))
    (orders : list (list nat)) :
  forall (e0 k i : nat) (u : Update),
    nth_error (concat (plan_epochs rate bounds e0 k orders)) i = Some u ->
    epoch_of u = (e0 + i / length bounds)%nat /\
    batch_of u = (i mod length bounds)%nat /\
    rate_of u = rate (k + i)%nat.
Proof.
  induction orders as [| order rest IH]; intros e0 k i u H.
  - destruct i; discriminate.
  - simpl in H.
    assert (HB : length bounds <> 0%nat).
    { intros Z0. apply length_zero_iff_nil in Z0. subst bounds.
      simpl in H. clear IH. revert e0 k H.
      induction rest as [| r rest IHr]; intros e0 k H; simpl in H.
      - destruct i; discriminate.
      - eapply IHr; eauto. }
    destruct (Nat.lt_ge_cases i (length bounds)) as [Hlt | Hge].
    + rewrite nth_error_app1 in H by (now rewrite plan_batches_length).
      apply plan_batches_nth in H. destruct H as (He & Hb & Hr).
      rewrite Nat.div_small, Nat.mod_small by assumption.
      rewrite He, Hb, Hr. repeat split; lia.
    + rewrite nth_error_app2 in H by (now rewrite plan_batches_length).
      rewrite plan_batches_length in H.
      apply IH in H. destruct H as (He & Hb & Hr).
      remember (i - length bounds)%nat as i' eqn:Hi'.
      assert (Hi : i = (i' + 1 * length bounds)%nat) by lia.
      rewrite Hi, Nat.div_add, Nat.Div0.mod_add by assumption.
      rewrite He, Hb, Hr. repeat split; [lia |].
      f_equal. lia.
Qed.

Lemma range_length_perm (order : list nat) (size : nat) :
  Permutation order (range size) -> length order = size.
Proof.
  intros P. rewrite (Permutation_length P). apply length_seq.
Qed.

(** ** C7: the batches of an epoch *)

Section Orders.
Context {E : Engine}.

(** The row order of epoch [e] is the index array after [e + 1] shuffles. *)
Lemma epoch_orders_nth (n : nat) :
  forall (g : generator) (idx : list nat) (e : nat),
    (e < n)%nat ->
    nth_error (epoch_orders n g idx) e = Some (snd (More.shuffles (S e) g idx)).
Proof.
  induction n as [| n IH]; intros g idx e He; [lia |].
  cbn [epoch_orders More.shuffles].
  destruct (np_shuffle g idx) as [idx' g'] eqn:Hsh.
  destruct e as [| e].
  - reflexivity.
  - simpl nth_error. rewrite IH by lia. reflexivity.
Qed.

End Orders.

(** C7, as the code has it: for a batch size [b] that does not divide the
    number [size] of training rows, [fit] returns; every epoch shuffles the
    row order first (the order of epoch [e] is the index array after [e + 1]
    shuffles, a permutation of the rows); the parameter updates [fit] makes
    in the epoch are computed on [size / b] batches of [b] rows and a last
    one of [size mod b] rows, which are the consecutive slices of that
    shuffled order; together they hold every row exactly once. *)
Theorem fit_epoch_partitions_shuffled_order :
  forall (E : Engine) (size nb_epoch b : nat) (v : variables * stream)
         (o : SGD) (g : generator) (e : nat),
    b <> 0%nat ->
    (size mod b <> 0)%nat ->
    (e < nb_epoch)%nat ->
    let p := plan (fun k => current_lr (steps k o)) size b
                  (epoch_orders nb_epoch g (range size)) in
    exists st order full last,
      fit size nb_epoch b v o g = Some st /\
      vars st = carry_out b p v /\
      order = snd (More.shuffles (S e) g (range size)) /\
      Permutation order (range size) /\
      epoch_batches e p = full ++ [last] /\
      full ++ [last] =
        map (fun i => slice order (i * b) (Nat.min size ((i + 1) * b)))
            (range (size / b + 1)) /\
      length full = (size / b)%nat /\
      Forall (fun ids => length ids = b) full /\
      length last = (size mod b)%nat /\
      concat (full ++ [last]) = order /\
      Permutation (concat (full ++ [last])) (range size).
Proof.
  intros E size nb_epoch b v o g e Hb Hr He p.
  assert (Hs : size <> 0%nat).
  { intros ->. apply Hr. apply Nat.Div0.mod_0_l. }
  destruct (fit_plan (fun k => current_lr (steps k o)) size nb_epoch b v o g Hb Hs)
    as (st & Hfit & _ & Hv); [reflexivity |].
  pose proof (epoch_orders_nth nb_epoch g (range size) e He) as Hn.
  set (order := snd (More.shuffles (S e) g (range size))) in *.
  assert (P : Permutation order (range size)).
  { pose proof (epoch_orders_perm nb_epoch g (range size)) as F.
    rewrite Forall_forall in F. apply F. eapply nth_error_In; eauto. }
  pose proof (range_length_perm order size P) as Hlo.
  destruct (cut_uneven order size b Hb Hr Hlo) as (full & last & Hcut & Hfl & Hfull & Hlast).
  exists st, order, full, last.
  split; [exact Hfit |]. split; [exact Hv |]. split; [reflexivity |].
  split; [exact P |].
  split.
  { rewrite <- Hcut. unfold p, plan. now apply epoch_batches_plan. }
  split.
  { rewrite <- Hcut. unfold cut, batch_bounds. rewrite map_map. simpl.
    now rewrite ceil_uneven. }
  split; [exact Hfl |]. split; [exact Hfull |]. split; [exact Hlast |].
  assert (Hc : concat (full ++ [last]) = order).
  { rewrite <- Hcut. now apply concat_cut. }
  split; [exact Hc |]. now rewrite Hc.
Qed.

Lemma fit_epoch_partitions_shuffled_order_witness :
  exists st order full last,
    fit (E := Toy.engine) 7 2 3 (0%nat, 0%nat) sgd 4%nat = Some st /\
    vars st =
      carry_out (E := Toy.engine) 3
        (plan (fun k => current_lr (steps k sgd)) 7 3
              (epoch_orders (E := Toy.engine) 2 4%nat (range 7)))
        (0%nat, 0%nat) /\
    order = snd (More.shuffles (E := Toy.engine) 2 4%nat (range 7)) /\
    Permutation order (range 7) /\
    epoch_batches 1
      (plan (fun k => current_lr (steps k sgd)) 7 3
            (epoch_orders (E := Toy.engine) 2 4%nat (range 7))) = full ++ [last] /\
    full ++ [last] =
      map (fun i => slice order (i * 3) (Nat.min 7 ((i + 1) * 3))) (range (7 / 3 + 1)) /\
    length full = (7 / 3)%nat /\
    Forall (fun ids => length ids = 3%nat) full /\
    length last = (7 mod 3)%nat /\
    concat (full ++ [last]) = order /\
    Permutation (concat (full ++ [last])) (range 7).
Proof.
  apply (fit_epoch_partitions_shuffled_order Toy.engine 7 2 3 (0%nat, 0%nat) sgd 4%nat 1).
  - discriminate.
  - simpl. discriminate.
  - lia.
Defined.

(** C7, as the specification words it, fails: on five training rows in
    batches of two, with a shuffle that interleaves, the first update of the
    epoch is computed on rows 0 and 2 and the second on rows 4 and 1; these
    batches are not contiguous in the training set. *)
Lemma batches_not_contiguous_in_training_set :
  exists st,
    fit (E := Recorder.engine) 5 1 2 ([], 0%nat) sgd 0%nat = Some st /\
    (5 mod 2 <> 0)%nat /\
    map snd (fst (vars st)) = [[0; 2]; [4; 1]; [3]]%nat /\
    forallb Spec.contiguous (map snd (fst (vars st))) = false.
Proof.
  eexists. split; [reflexivity |]. split; [discriminate |].
  split; reflexivity.
Qed.

(** ** C3: the learning rate *)

Lemma same_float_eq (x y : spec_float) : same_float x y = true -> x = y.
Proof.
  destruct x as [a | a | | a m e], y as [b | b | | b n f]; simpl;
    try discriminate; try reflexivity.
  - intros H. apply Bool.eqb_prop in H. now subst.
  - intros H. apply Bool.eqb_prop in H. now subst.
  - intros H. apply andb_prop in H. destruct H as [H He].
    apply andb_prop in H. destruct H as [Ha Hm].
    apply Bool.eqb_prop in Ha. apply Pos.eqb_eq in Hm. apply Z.eqb_eq in He.
    now subst.
Qed.

Lemma steps_fields (k : nat) (o : SGD) :
  lr (steps k o) = lr o /\ Training.decay (steps k o) = Training.decay o /\
  decaying (steps k o) = decaying o.
Proof.
  induction k as [| k (A & B & C)]; [auto |].
  cbn [steps]. unfold step_iterations. rewrite C.
  destruct (decaying o) eqn:D; [| auto].
  unfold decaying in *. cbn [lr Training.decay initial_decay]. auto.
Qed.

(** While the float32 counter stays on the integers, the optimiser's
    counter after [j] updates is the float32 value of [j]. *)
Lemma counter_steps (n : nat) :
  forall (o : SGD) (k : Z),
    decaying o = true ->
    Checks.counter_exact n (iterations o) k = true ->
    forall j, (j <= n)%nat ->
              iterations (steps j o) = astype_float32 (k + Z.of_nat j).
Proof.
  induction n as [| n IH]; intros o k Hd Hc j Hj.
  - assert (j = 0%nat) by lia. subst j. simpl in *. rewrite Z.add_0_r.
    now apply same_float_eq.
  - cbn [Checks.counter_exact] in Hc.
    destruct (same_float (iterations o) (astype_float32 k)) eqn:Hs; [| discriminate].
    destruct j as [| j].
    + simpl. rewrite Z.add_0_r. now apply same_float_eq.
    + rewrite steps_succ_r.
      replace (k + Z.of_nat (S j))%Z with ((k + 1) + Z.of_nat j)%Z by lia.
      apply IH; [| | lia].
      * unfold step_iterations. rewrite Hd. exact Hd.
      * unfold step_iterations. rewrite Hd. exact Hc.
Qed.

Lemma counter_exact_65536 : Checks.counter_exact (Z.to_nat 65536) f32_0 0 = true.
Proof. vm_compute. reflexivity. Qed.

(** The rate of the update after [k] earlier ones, for an optimiser built
    with a positive decay. *)
Lemma current_lr_after (rate_0 mom dec : spec_float) (nest : bool) (k : nat) :
  SFltb zero64 dec = true ->
  (Z.of_nat k <= 65536)%Z ->
  current_lr (steps k (SGD_new rate_0 mom dec nest))
  = rate_after (to_float32 rate_0) (to_float32 dec) k /\
  iterations (steps k (SGD_new rate_0 mom dec nest)) = astype_float32 (Z.of_nat k).
Proof.
  intros Hd Hk.
  destruct (steps_fields k (SGD_new rate_0 mom dec nest)) as (A & B & C).
  assert (I : iterations (steps k (SGD_new rate_0 mom dec nest))
              = astype_float32 (0 + Z.of_nat k)%Z).
  { apply (counter_steps (Z.to_nat 65536)); [exact Hd | exact counter_exact_65536 | lia]. }
  rewrite Z.add_0_l in I. split; [| exact I].
  unfold current_lr, rate_after. rewrite C, A, B, I.
  unfold decaying. cbn [initial_decay SGD_new lr Training.decay]. now rewrite Hd.
Qed.

Lemma plan_epochs_epoch (rate : nat -> spec_float) (bounds : list (nat * nat))
    (orders : list (list nat)) :
  forall (e0 k t : nat),
    (t < length orders)%nat ->
    nth t (plan_epochs rate bounds e0 k orders) []
    = plan_batches rate (nth t orders []) (e0 + t) 0 (k + t * length bounds) bounds.
Proof.
  induction orders as [| order rest IH]; intros e0 k t Ht; simpl in Ht; [lia |].
  destruct t as [| t]; cbn [plan_epochs nth].
  - do 2 f_equal; lia.
  - rewrite IH by lia. f_equal; lia.
Qed.

(** C3, as the code has it: with [decay = rate_0 / nb_epoch] positive, [fit]
    returns, and the parameter updates it makes are those of the plan in
    which batch [j] of epoch [t] is computed with the rate
    [lr * (1 / (1 + decay * k))], [k = t * B + j] being the number of updates
    made before it, [B] the number of batches of an epoch, and [lr], [decay]
    and the counter float32 variables; the optimiser's counter ends at the
    number of updates.  (The bound keeps the float32 counter exact.) *)
Theorem learning_rate_decays_per_update :
  forall (E : Engine) (size nb_epoch b : nat) (v : variables * stream)
         (g : generator) (rate_0 mom : spec_float) (nest : bool),
    b <> 0%nat ->
    size <> 0%nat ->
    SFltb zero64 (true_divide64 rate_0 (astype_float64 (Z.of_nat nb_epoch))) = true ->
    (Z.of_nat (nb_epoch * ((size + b - 1) / b)) <= 65536)%Z ->
    let dec := true_divide64 rate_0 (astype_float64 (Z.of_nat nb_epoch)) in
    let B := ((size + b - 1) / b)%nat in
    let rate := rate_after (to_float32 rate_0) (to_float32 dec) in
    let p := plan rate size b (epoch_orders nb_epoch g (range size)) in
    exists st,
      fit size nb_epoch b v (SGD_new rate_0 mom dec nest) g = Some st /\
      vars st = carry_out b p v /\
      length p = nb_epoch /\
      (forall t j, (t < nb_epoch)%nat -> (j < B)%nat ->
         exists u, nth_error (nth t p []) j = Some u /\
                   epoch_of u = t /\ batch_of u = j /\
                   rate_of u = rate (t * B + j)%nat) /\
      iterations (optimizer st) = astype_float32 (Z.of_nat (nb_epoch * B)).
Proof.
  intros E size nb_epoch b v g rate_0 mom nest Hb Hs Hd Hk dec B rate p.
  assert (HB : length (batch_bounds size b) = B) by apply batch_bounds_length.
  destruct (fit_plan rate size nb_epoch b v (SGD_new rate_0 mom dec nest) g Hb Hs)
    as (st & Hfit & Hopt & Hv).
  { intros i Hi. rewrite HB in Hi.
    apply (current_lr_after rate_0 mom dec nest i Hd). lia. }
  exists st. split; [exact Hfit |]. split; [exact Hv |].
  split.
  { unfold p, plan.
    rewrite (proj1 (plan_epochs_length rate _ _ 0 0)). apply epoch_orders_length. }
  split.
  - intros t j Ht Hj. unfold p, plan.
    rewrite plan_epochs_epoch by (now rewrite epoch_orders_length).
    rewrite HB.
    destruct (nth_error (plan_batches rate (nth t (epoch_orders nb_epoch g (range size)) [])
                           (0 + t) 0 (0 + t * B) (batch_bounds size b)) j)
      as [u |] eqn:Hu.
    + exists u. split; [reflexivity |].
      apply plan_batches_nth in Hu. destruct Hu as (A1 & A2 & A3).
      rewrite A1, A2, A3. repeat split.
    + apply nth_error_None in Hu. rewrite plan_batches_length, HB in Hu. lia.
  - rewrite Hopt, HB.
    apply (current_lr_after rate_0 mom dec nest (nb_epoch * B) Hd). exact Hk.
Qed.

Lemma learning_rate_decays_per_update_witness :
  exists st,
    fit (E := Toy.engine) 5 2 2 (0%nat, 0%nat)
        (SGD_new lrate (python_float 9 10)
                 (true_divide64 lrate (astype_float64 (Z.of_nat 2))) false) 7%nat
    = Some st /\
    vars st =
      carry_out (E := Toy.engine) 2
        (plan (rate_after (to_float32 lrate)
                 (to_float32 (true_divide64 lrate (astype_float64 (Z.of_nat 2)))))
              5 2 (epoch_orders (E := Toy.engine) 2 7%nat (range 5)))
        (0%nat, 0%nat) /\
    length
      (plan (rate_after (to_float32 lrate)
               (to_float32 (true_divide64 lrate (astype_float64 (Z.of_nat 2)))))
            5 2 (epoch_orders (E := Toy.engine) 2 7%nat (range 5))) = 2%nat /\
    (forall t j, (t < 2)%nat -> (j < (5 + 2 - 1) / 2)%nat ->
       exists u,
         nth_error
           (nth t
              (plan (rate_after (to_float32 lrate)
                       (to_float32 (true_divide64 lrate (astype_float64 (Z.of_nat 2)))))
                    5 2 (epoch_orders (E := Toy.engine) 2 7%nat (range 5))) []) j
         = Some u /\
         epoch_of u = t /\ batch_of u = j /\
         rate_of u =
           rate_after (to_float32 lrate)
             (to_float32 (true_divide64 lrate (astype_float64 (Z.of_nat 2))))
             (t * ((5 + 2 - 1) / 2) + j)%nat) /\
    iterations (optimizer st) = astype_float32 (Z.of_nat (2 * ((5 + 2 - 1) / 2))).
Proof.
  apply (learning_rate_decays_per_update Toy.engine 5 2 2 (0%nat, 0%nat) 7%nat
           lrate (python_float 9 10) false).
  - discriminate.
  - discriminate.
  - vm_compute. reflexivity.
  - vm_compute. discriminate.
Defined.

(** What the recording engine's variables hold after a plan was carried
    out: the rate and the rows of every update, in order. *)
Lemma recorder_replay (p : list Update) :
  forall v : list (spec_float * list nat) * nat,
    fst (replay (E := Recorder.engine) p v)
    = fst v ++ map (fun u => (rate_of u, rows_of u)) p.
Proof.
  induction p as [| u rest IH]; intros v.
  - simpl. now rewrite app_nil_r.
  - unfold replay in *. cbn [fold_left]. rewrite IH.
    cbn [train_function Recorder.engine fst map]. now rewrite <- app_assoc.
Qed.

Lemma recorder_carry_out (b : nat) (p : list (list Update)) :
  forall v : list (spec_float * list nat) * nat,
    fst (carry_out (E := Recorder.engine) b p v)
    = fst v ++ map (fun u => (rate_of u, rows_of u)) (concat p).
Proof.
  induction p as [| ep rest IH]; intros v.
  - simpl. now rewrite app_nil_r.
  - unfold carry_out in *. cbn [fold_left]. rewrite IH.
    cbn [fst concat]. rewrite recorder_replay, map_app. now rewrite <- app_assoc.
Qed.

(** C3, as the specification words it, fails: on the 50,000 training rows
    in batches of 32 for 25 epochs, the second update of the first epoch
    (there are 1563 in that epoch) is computed with a rate strictly below
    the rate [rate_0 / (1 + decay * 0)] the specification gives to the whole
    of epoch 0. *)
Lemma per_epoch_schedule_fails :
  exists st r ids,
    fit (E := Recorder.engine) cifar_train_rows epochs 32 ([], 0%nat) sgd 0%nat = Some st /\
    (1 < (cifar_train_rows + 32 - 1) / 32)%nat /\
    nth_error (fst (vars st)) 1 = Some (r, ids) /\
    r <> Spec.rate_of_epoch lrate epochs 0 /\
    SFltb r (Spec.rate_of_epoch lrate epochs 0) = true.
Proof.
  assert (HB : length (batch_bounds cifar_train_rows 32) = 1563%nat).
  { rewrite batch_bounds_length. vm_compute. reflexivity. }
  assert (Hs : cifar_train_rows <> 0%nat).
  { intros H. apply (f_equal (Nat.eqb 0)) in H. vm_compute in H. discriminate. }
  destruct (fit_plan (E := Recorder.engine) (fun k => current_lr (steps k sgd))
              cifar_train_rows epochs 32 ([], 0%nat) sgd 0%nat)
    as (st & Hfit & _ & Hv); [discriminate | exact Hs | reflexivity |].
  set (p := plan (fun k => current_lr (steps k sgd)) cifar_train_rows 32
                 (epoch_orders (E := Recorder.engine) epochs 0%nat (range cifar_train_rows)))
    in *.
  assert (Hlen : length (concat p) = (epochs * 1563)%nat).
  { unfold p, plan. rewrite (proj2 (plan_epochs_length _ _ _ 0 0)).
    now rewrite (epoch_orders_length (E := Recorder.engine)), HB. }
  destruct (nth_error (concat p) 1) as [u |] eqn:Hu.
  2: { apply nth_error_None in Hu. rewrite Hlen in Hu. apply Nat.leb_le in Hu.
       vm_compute in Hu. discriminate. }
  exists st, (rate_of u), (rows_of u).
  split; [exact Hfit |].
  split.
  { apply Nat.ltb_lt. vm_compute. reflexivity. }
  split.
  { rewrite Hv, recorder_carry_out. cbn [fst app].
    rewrite nth_error_map, Hu. reflexivity. }
  unfold p, plan in Hu. apply plan_epochs_nth in Hu. destruct Hu as (_ & _ & Hr).
  rewrite Hr. cbn [Nat.add steps].
  split.
  - intros H. apply (f_equal (fun x => same_float x (Spec.rate_of_epoch lrate epochs 0))) in H.
    vm_compute in H. discriminate.
  - vm_compute. reflexivity.
Qed.

(** ** The generator through [fit] *)

Import More.

(** X15: the only draws [fit] makes from NumPy's generator are the
    per-epoch shuffles: the generator and the row order it leaves are those
    after [nb_epoch] shuffles of [range(size)], whatever the batch size, the
    optimiser and the model variables. *)
Theorem fit_generator_is_shuffles :
  forall (E : Engine) (size nb_epoch b : nat) (v : variables * stream)
         (o : SGD) (g : generator) (st : TrainState),
    fit size nb_epoch b v o g = Some st ->
    (gen st, index_array st) = shuffles nb_epoch g (range size).
Proof.
  intros E size nb_epoch b v o g st H. unfold fit in H.
  apply epoch_loop_generator in H. exact H.
Qed.

Lemma fit_generator_is_shuffles_witness :
  exists st,
    fit (E := Toy.engine) 5 2 2 (0%nat, 0%nat) sgd 7%nat = Some st /\
    (gen st, index_array st) = shuffles (E := Toy.engine) 2 7%nat (range 5).
Proof.
  eexists. split; [reflexivity |].
  apply (fit_generator_is_shuffles Toy.engine 5 2 2 (0%nat, 0%nat) sgd 7%nat).
  reflexivity.
Defined.

(** ** C8: what [evaluate] reports *)

Section Evaluate.
Context {E : Engine}.

Lemma test_batches_cut (m : Sequential) (vs : variables * stream)
    (rows : list (list (list (list spec_float)) * list spec_float))
    (bounds : list (nat * nat)) :
  forall outs,
    test_batches m vs rows bounds outs
    = fold_left (More.accumulate_batch m vs) (cut rows bounds) outs.
Proof.
  induction bounds as [| b rest IH]; intros outs; [reflexivity |].
  cbn [test_batches cut map fold_left]. rewrite IH. reflexivity.
Qed.




End Evaluate.

(** *** The float facts the accumulation rests on *)








Section EvaluateAccuracy.
Context {E : Engine}.



End EvaluateAccuracy.

Section EvaluateTheorem.
Context {E : Engine}.



End EvaluateTheorem.



(** ** Seeding and the order of the cells *)

Lemma mapM_length {A B : Type} (f : A -> option B) (l : list A) (bs : list B) :
  Exn.mapM f l = Some bs -> length bs = length l.
Proof.
  intros H. apply mapM_Forall2 in H. symmetry. eapply Forall2_length; eauto.
Qed.

Lemma forallb_over_map {A B : Type} (f : A -> B) (p : B -> bool) (l : list A) :
  forallb p (map f l) = forallb (fun a => p (f a)) l.
Proof. induction l as [| a t IH]; simpl; [reflexivity | now rewrite IH]. Qed.

Lemma forallb_same {A : Type} (p q : A -> bool) (l : list A) :
  (forall a, p a = q a) -> forallb p l = forallb q l.
Proof.
  intros H. induction l as [| a t IH]; simpl; [reflexivity | now rewrite H, IH].
Qed.

Lemma image_has_shape_map {A B : Type} (f : A -> B) (s : shape)
    (image : list (list (list A))) :
  image_has_shape s (map (map (map f)) image) = image_has_shape s image.
Proof.
  unfold image_has_shape.
  destruct s as [| channels [| rows [| cols [| ? ?]]]]; try reflexivity.
  rewrite length_map. f_equal.
  rewrite forallb_over_map. apply forallb_same. intros plane.
  rewrite length_map. f_equal.
  rewrite forallb_over_map. apply forallb_same. intros row.
  now rewrite length_map.
Qed.

Lemma normalize_keeps_shapes (s : shape) (X : nd4 Z) :
  forallb (image_has_shape s) (normalize X) = forallb (image_has_shape s) X /\
  length (normalize X) = length X.
Proof.
  rewrite normalize_scale. unfold map4. split.
  - rewrite forallb_over_map. apply forallb_same. intros image.
    apply image_has_shape_map.
  - apply length_map.
Qed.

Lemma labels_0_9 (y : list Z) :
  forallb More.in_0_9 y = true -> Forall (fun l => (0 <= l <= 9)%Z) y.
Proof.
  rewrite forallb_forall, Forall_forall. intros H l Hl.
  specialize (H l Hl). unfold More.in_0_9 in H.
  apply andb_prop in H. destruct H as [A B].
  apply Z.leb_le in A. apply Z.leb_le in B. lia.
Qed.

Lemma label_9_present (y : list Z) : existsb (Z.eqb 9) y = true -> In 9%Z y.
Proof.
  rewrite existsb_exists. intros (l & Hl & He). apply Z.eqb_eq in He. now subst.
Qed.

(** Labels in 0..9 with 9 among them are encoded in rows of ten entries. *)
Lemma to_categorical_ten (y : list Z) :
  forallb More.in_0_9 y = true ->
  existsb (Z.eqb 9) y = true ->
  exists Y,
    to_categorical y = Some Y /\
    length Y = length y /\
    forallb (fun row : list spec_float => (Z.of_nat (length row) =? 10)%Z) Y = true /\
    shape1 Y = 10%Z.
Proof.
  intros H09 H9. apply labels_0_9 in H09. apply label_9_present in H9.
  assert (Hne : y <> []) by (intros ->; contradiction).
  destruct (np_max_total y Hne) as [m Hm].
  destruct (np_max_spec _ _ Hm) as [Hin Hle].
  assert (Hm9 : m = 9%Z).
  { rewrite Forall_forall in H09, Hle. specialize (H09 m Hin). specialize (Hle 9%Z H9). lia. }
  subst m.
  destruct (to_categorical y) as [Y |] eqn:HY.
  - exists Y. split; [reflexivity |].
    destruct (to_categorical_width _ _ HY) as (m & Hm' & Hrows & Hw).
    rewrite Hm in Hm'. inversion Hm'; subst m.
    split.
    { unfold to_categorical, Exn.bind in HY. rewrite Hm in HY.
      now apply mapM_length in HY. }
    split; [| exact Hw].
    apply forallb_forall. intros row Hrow.
    rewrite Forall_forall in Hrows. rewrite (Hrows row Hrow). reflexivity.
  - exfalso. unfold to_categorical, Exn.bind in HY. rewrite Hm in HY.
    rewrite (mapM_total (one_hot_row (9 + 1))
               (fun l => repeat zero64 (Z.to_nat l)
                         ++ one64 :: repeat zero64 (Z.to_nat (9 + 1) - 1 - Z.to_nat l))) in HY;
      [discriminate |].
    intros l Hl. apply one_hot_row_shape.
    rewrite Forall_forall in H09. specialize (H09 l Hl). lia.
Qed.

Lemma plot_grid_total {A : Type} (X : list A) :
  (9 <= length X)%nat -> exists cells, Pyplot.plot_grid X = Some cells.
Proof.
  intros H.
  do 9 (destruct X as [| ? X]; [simpl in H; lia |]).
  eexists. reflexivity.
Qed.

(** What preprocessing gives on data shaped like CIFAR-10. *)
Lemma cifar_like_preprocess (raw : RawData) :
  More.cifar_like raw = true ->
  exists d,
    preprocess raw = Some d /\
    num_classes d = 10%Z /\
    (9 <= length (X_train d))%nat /\
    X_test d <> [] /\
    (forall m : Sequential,
        inputs m = Some [3; 32; 32]%Z -> outputs m = Some [10]%Z ->
        standardize_user_data m (X_train d) (y_train d) = Some tt /\
        standardize_user_data m (X_test d) (y_test d) = Some tt) /\
    combine (X_test d) (y_test d) <> [].
Proof.
  unfold More.cifar_like. intros H. rewrite !andb_true_iff in H.
  destruct H as ((((((((K1 & K2) & K3) & K4) & K5) & K6) & K7) & K8) & K9).
  apply Nat.leb_le in K1. apply Nat.eqb_eq in K4, K5.
  destruct (to_categorical_ten _ K6 K8) as (Ytr & Htr & Ltr & Wtr & _).
  destruct (to_categorical_ten _ K7 K9) as (Yte & Hte & Lte & Wte & Ste).
  destruct (normalize_keeps_shapes [3; 32; 32]%Z (raw_X_train raw)) as [Ntr Mtr].
  destruct (normalize_keeps_shapes [3; 32; 32]%Z (raw_X_test raw)) as [Nte Mte].
  eexists. split.
  { unfold preprocess, Exn.bind. rewrite Htr, Hte. reflexivity. }
  cbn [num_classes X_train X_test y_train y_test].
  split; [exact Ste |].
  split; [rewrite Mtr; exact K1 |].
  assert (Hne : raw_y_test raw <> []).
  { intros E0. rewrite E0 in K9. discriminate. }
  assert (Hx : normalize (raw_X_test raw) <> []).
  { intros E0. apply (f_equal (@length _)) in E0. rewrite Mte, K5 in E0.
    apply length_zero_iff_nil in E0. contradiction. }
  split; [exact Hx |].
  split.
  - intros m Hi Ho. unfold standardize_user_data, Exn.bind. rewrite Hi, Ho.
    rewrite Ntr, Nte, K2, K3, Wtr, Wte, Mtr, Mte, Ltr, Lte, K4, K5, !Nat.eqb_refl.
    split; reflexivity.
  - intros E0. apply (f_equal (@length _)) in E0.
    rewrite length_combine, Mte, Lte, K5, Nat.min_id in E0.
    apply length_zero_iff_nil in E0. contradiction.
Qed.

Section Seeding.
Context {E : Engine}.

Lemma accumulate_two (m : Sequential) (vs : variables * stream)
    (batches : list (list (list (list (list spec_float)) * list spec_float))) :
  forall outs,
    batches <> [] ->
    exists loss acc, fold_left (More.accumulate_batch m vs) batches outs = [loss; acc].
Proof.
  induction batches as [| b rest IH]; intros outs Hne; [congruence |].
  cbn [fold_left]. destruct rest as [| b' rest'].
  - simpl. unfold More.accumulate_batch, accumulate.
    destruct outs as [| ? [| ? [| ? ?]]]; eauto.
  - apply IH. discriminate.
Qed.

(** [evaluate] returns a loss and an accuracy when there is a row. *)
Lemma evaluate_two_scores (m : Sequential) (vs : variables * stream)
    (X : nd4 spec_float) (Y : list (list spec_float)) :
  combine X Y <> [] ->
  exists loss acc, evaluate m vs X Y = Some [loss; acc].
Proof.
  intros Hne. unfold evaluate.
  rewrite (make_batches_bounds (length (combine X Y)) 32) by discriminate.
  cbn [Exn.bind]. rewrite test_batches_cut.
  destruct (accumulate_two m vs (cut (combine X Y) (batch_bounds (length (combine X Y)) 32)) [])
    as (l & a & Hla).
  { unfold cut. intros Hnil. apply map_eq_nil in Hnil.
    apply (batch_bounds_not_nil (length (combine X Y)) 32); [discriminate | | exact Hnil].
    intros H0. apply length_zero_iff_nil in H0. contradiction. }
  rewrite Hla. cbn [map]. eauto.
Qed.

Lemma fit_total (size nb_epoch b : nat) (v : variables * stream) (o : SGD)
    (g : generator) :
  b <> 0%nat -> size <> 0%nat ->
  exists st,
    fit size nb_epoch b v o g = Some st /\
    (gen st, index_array st) = More.shuffles nb_epoch g (range size) /\
    vars st = carry_out b (plan (fun k => current_lr (steps k o)) size b
                             (epoch_orders nb_epoch g (range size))) v.
Proof.
  intros Hb Hs.
  destruct (fit_plan (fun k => current_lr (steps k o)) size nb_epoch b v o g Hb Hs)
    as (st & Hfit & _ & Hv); [reflexivity |].
  exists st. split; [exact Hfit |]. split; [| exact Hv].
  unfold fit in Hfit. now apply epoch_loop_generator in Hfit.
Qed.

(** The run of the whole notebook on data shaped like CIFAR-10, statement
    by statement. *)
Lemma run_program (raw : RawData) (g0 : generator) :
  More.cifar_like raw = true ->
  exists (G : Globals) (d : Data) (m_s m_d : Sequential) (st_s st_d : TrainState),
    run raw program (fresh g0) = Some G /\
    preprocess raw = Some d /\
    shallow_model (num_classes d) = Some m_s /\
    deep_model (num_classes d) = Some m_d /\
    fit (length (X_train d)) epochs 32
        (fst (initialize (layers m_s) (np_seed seed))) sgd
        (snd (initialize (layers m_s) (np_seed seed))) = Some st_s /\
    fit (length (X_train d)) epochs 64
        (fst (initialize (layers m_d) (gen st_s))) sgd (np_seed seed) = Some st_d /\
    g_events G =
      [ Initialized Shallow (np_seed seed) (fst (initialize (layers m_s) (np_seed seed)));
        FitEntered Shallow (snd (initialize (layers m_s) (np_seed seed)))
                   (fst (initialize (layers m_s) (np_seed seed)));
        Initialized Deep (gen st_s) (fst (initialize (layers m_d) (gen st_s)));
        FitEntered Deep (np_seed seed) (fst (initialize (layers m_d) (gen st_s))) ] /\
    g_vars G = Some (fst (vars st_d), test_pass 32 (snd (vars st_d))).
Proof.
  intros Hc.
  destruct (cifar_like_preprocess raw Hc) as (d & Hp & Hnc & Hn & Hx & Hstd & Hrows).
  destruct (plot_grid_total (raw_X_train raw)) as [cells Hplot].
  { destruct (preprocess_inv _ _ Hp) as (_ & _ & _ & Hxt & _).
    rewrite Hxt in Hn. now rewrite (proj2 (normalize_keeps_shapes [] _)) in Hn. }
  destruct (shallow_model (num_classes d)) as [m_s |] eqn:Hs;
    [| rewrite shallow_model_value in Hs; discriminate].
  destruct (deep_model (num_classes d)) as [m_d |] eqn:Hd;
    [| rewrite deep_model_value in Hd; discriminate].
  assert (Hio_s : inputs m_s = Some [3; 32; 32]%Z /\ outputs m_s = Some [10]%Z).
  { rewrite shallow_model_value, Hnc in Hs. inversion Hs; subst m_s. split; reflexivity. }
  assert (Hio_d : inputs m_d = Some [3; 32; 32]%Z /\ outputs m_d = Some [10]%Z).
  { rewrite deep_model_value, Hnc in Hd. inversion Hd; subst m_d. split; reflexivity. }
  destruct (Hstd m_s (proj1 Hio_s) (proj2 Hio_s)) as [Str_s Ste_s].
  destruct (Hstd m_d (proj1 Hio_d) (proj2 Hio_d)) as [Str_d Ste_d].
  assert (Hsize : length (X_train d) <> 0%nat) by lia.
  destruct (initialize (layers m_s) (np_seed seed)) as [v1 g1] eqn:Hi1.
  destruct (fit_total (length (X_train d)) epochs 32 v1 sgd g1) as (st_s & Hf1 & _);
    [discriminate | exact Hsize |].
  destruct (evaluate_two_scores m_s (vars st_s) (X_test d) (y_test d) Hrows)
    as (l1 & a1 & He1).
  destruct (initialize (layers m_d) (gen st_s)) as [v2 g2] eqn:Hi2.
  destruct (fit_total (length (X_train d)) epochs 64 v2 sgd (np_seed seed)) as (st_d & Hf2 & _);
    [discriminate | exact Hsize |].
  destruct (evaluate_two_scores m_d (vars st_d) (X_test d) (y_test d) Hrows)
    as (l2 & a2 & He2).
  eexists. exists d, m_s, m_d, st_s, st_d.
  split.
  - unfold program, run, fresh.
    cbn [exec Exn.bind g_gen g_data g_model g_vars g_sgd g_scores g_events].
    rewrite Hplot.
    cbn [exec Exn.bind g_gen g_data g_model g_vars g_sgd g_scores g_events].
    rewrite Hp.
    cbn [exec Exn.bind g_gen g_data g_model g_vars g_sgd g_scores g_events build].
    rewrite Hs.
    cbn [exec Exn.bind g_gen g_data g_model g_vars g_sgd g_scores g_events build].
    rewrite Hi1.
    cbn [exec Exn.bind g_gen g_data g_model g_vars g_sgd g_scores g_events build fst snd].
    rewrite Str_s, Ste_s.
    cbn [exec Exn.bind g_gen g_data g_model g_vars g_sgd g_scores g_events build fst snd].
    rewrite Hf1.
    cbn [exec Exn.bind g_gen g_data g_model g_vars g_sgd g_scores g_events build fst snd].
    rewrite Ste_s.
    cbn [exec Exn.bind g_gen g_data g_model g_vars g_sgd g_scores g_events build fst snd].
    rewrite He1.
    cbn [exec Exn.bind g_gen g_data g_model g_vars g_sgd g_scores g_events build fst snd
         nth_error].
    rewrite Hd.
    cbn [exec Exn.bind g_gen g_data g_model g_vars g_sgd g_scores g_events build fst snd].
    rewrite Hi2.
    cbn [exec Exn.bind g_gen g_data g_model g_vars g_sgd g_scores g_events build fst snd].
    rewrite Str_d, Ste_d.
    cbn [exec Exn.bind g_gen g_data g_model g_vars g_sgd g_scores g_events build fst snd].
    rewrite Hf2.
    cbn [exec Exn.bind g_gen g_data g_model g_vars g_sgd g_scores g_events build fst snd].
    rewrite Ste_d.
    cbn [exec Exn.bind g_gen g_data g_model g_vars g_sgd g_scores g_events build fst snd].
    rewrite He2.
    cbn [exec Exn.bind g_gen g_data g_model g_vars g_sgd g_scores g_events build fst snd
         nth_error].
    reflexivity.
  - rewrite Hi1, Hi2. cbn [fst snd g_events g_vars app]. repeat split; auto.
Qed.

End Seeding.

(** C10, as the code has it: the notebook seeds the generator in two places
    only, before anything draws from it and directly before the second
    [fit]; the larger model is created in between.  On data shaped like
    CIFAR-10 the notebook runs to its end, and: the larger model's initial
    variables and the random stream of its dropout masks are made from the
    generator state the first [fit] left behind (the state after its
    shuffles); the second [fit] starts from the seeded generator, so the
    row orders of its epochs are those of the seed, and its updates are the
    planned ones on those orders, made on the variables and with the stream
    built before the re-seeding. *)
Theorem reseeding_fixes_only_the_shuffles :
  (positions is_set_seed program = [1; 9]%nat /\
   positions is_create program = [3; 7]%nat /\
   positions is_fit program = [5; 10]%nat /\
   nth_error program 1 = Some (SetSeed 7) /\
   nth_error program 3 = Some (CreateModel Shallow) /\
   nth_error program 5 = Some (FitModel 32) /\
   nth_error program 7 = Some (CreateModel Deep) /\
   nth_error program 9 = Some (SetSeed 7) /\
   nth_error program 10 = Some (FitModel 64)) /\
  (forall (E : Engine) (raw : RawData) (g0 : generator),
      cifar_like raw = true ->
      exists (G : Globals) (d : Data) (m_s m_d : Sequential) (st_s st_d : TrainState),
        run raw program (fresh g0) = Some G /\
        preprocess raw = Some d /\
        shallow_model (num_classes d) = Some m_s /\
        deep_model (num_classes d) = Some m_d /\
        fit (length (X_train d)) epochs 32
            (fst (initialize (layers m_s) (np_seed 7))) sgd
            (snd (initialize (layers m_s) (np_seed 7))) = Some st_s /\
        gen st_s =
          fst (shuffles epochs (snd (initialize (layers m_s) (np_seed 7)))
                        (range (length (X_train d)))) /\
        fit (length (X_train d)) epochs 64
            (fst (initialize (layers m_d) (gen st_s))) sgd (np_seed 7) = Some st_d /\
        g_events G =
          [ Initialized Shallow (np_seed 7) (fst (initialize (layers m_s) (np_seed 7)));
            FitEntered Shallow (snd (initialize (layers m_s) (np_seed 7)))
                       (fst (initialize (layers m_s) (np_seed 7)));
            Initialized Deep (gen st_s) (fst (initialize (layers m_d) (gen st_s)));
            FitEntered Deep (np_seed 7) (fst (initialize (layers m_d) (gen st_s))) ] /\
        (gen st_d, index_array st_d)
        = shuffles epochs (np_seed 7) (range (length (X_train d))) /\
        vars st_d =
          carry_out 64
            (plan (fun k => current_lr (steps k sgd)) (length (X_train d)) 64
                  (epoch_orders epochs (np_seed 7) (range (length (X_train d)))))
            (fst (initialize (layers m_d) (gen st_s)))).
Proof.
  split.
  - repeat split.
  - intros E raw g0 Hc.
    destruct (run_program raw g0 Hc)
      as (G & d & m_s & m_d & st_s & st_d & Hrun & Hp & Hs & Hd & Hf1 & Hf2 & Hev & _).
    exists G, d, m_s, m_d, st_s, st_d.
    change seed with 7%Z in *.
    split; [exact Hrun |]. split; [exact Hp |]. split; [exact Hs |].
    split; [exact Hd |]. split; [exact Hf1 |].
    split.
    { pose proof Hf1 as H. unfold fit in H. apply epoch_loop_generator in H.
      cbn [gen index_array] in H. rewrite <- H. reflexivity. }
    split; [exact Hf2 |]. split; [exact Hev |].
    assert (Hsize : length (X_train d) <> 0%nat).
    { destruct (cifar_like_preprocess raw Hc) as (d' & Hp' & _ & Hn & _).
      rewrite Hp in Hp'. inversion Hp'; subst d'. lia. }
    destruct (fit_total (length (X_train d)) epochs 64
                (fst (initialize (layers m_d) (gen st_s))) sgd (np_seed 7))
      as (st & Hf & Hg & Hv); [discriminate | exact Hsize |].
    rewrite Hf2 in Hf. inversion Hf; subst st. split; assumption.
Qed.

Lemma reseeding_fixes_only_the_shuffles_witness :
  exists (G : @Globals Toy.engine) (d : Data) (m_s m_d : Sequential)
         (st_s st_d : @TrainState Toy.engine),
    run (E := Toy.engine) Samples.nine_rows program (fresh (E := Toy.engine) 3%nat) = Some G /\
    preprocess Samples.nine_rows = Some d /\
    shallow_model (num_classes d) = Some m_s /\
    deep_model (num_classes d) = Some m_d /\
    fit (E := Toy.engine) (length (X_train d)) epochs 32
        (fst (initialize (Engine := Toy.engine) (layers m_s) (np_seed (Engine := Toy.engine) 7))) sgd
        (snd (initialize (Engine := Toy.engine) (layers m_s) (np_seed (Engine := Toy.engine) 7))) = Some st_s /\
    gen st_s =
      fst (shuffles (E := Toy.engine) epochs (snd (initialize (Engine := Toy.engine) (layers m_s) (np_seed (Engine := Toy.engine) 7)))
                    (range (length (X_train d)))) /\
    fit (E := Toy.engine) (length (X_train d)) epochs 64
        (fst (initialize (Engine := Toy.engine) (layers m_d) (gen st_s))) sgd (np_seed (Engine := Toy.engine) 7) = Some st_d /\
    g_events G =
      [ Initialized (E := Toy.engine) Shallow (np_seed (Engine := Toy.engine) 7) (fst (initialize (Engine := Toy.engine) (layers m_s) (np_seed (Engine := Toy.engine) 7)));
        FitEntered Shallow (snd (initialize (Engine := Toy.engine) (layers m_s) (np_seed (Engine := Toy.engine) 7)))
                   (fst (initialize (Engine := Toy.engine) (layers m_s) (np_seed (Engine := Toy.engine) 7)));
        Initialized Deep (gen st_s) (fst (initialize (Engine := Toy.engine) (layers m_d) (gen st_s)));
        FitEntered Deep (np_seed (Engine := Toy.engine) 7) (fst (initialize (Engine := Toy.engine) (layers m_d) (gen st_s))) ] /\
    (gen st_d, index_array st_d)
    = shuffles (E := Toy.engine) epochs (np_seed (Engine := Toy.engine) 7) (range (length (X_train d))) /\
    vars st_d =
      carry_out (E := Toy.engine) 64
        (plan (fun k => current_lr (steps k sgd)) (length (X_train d)) 64
              (epoch_orders (E := Toy.engine) epochs (np_seed (Engine := Toy.engine) 7) (range (length (X_train d)))))
        (fst (initialize (Engine := Toy.engine) (layers m_d) (gen st_s))).
Proof.
  apply (proj2 reseeding_fixes_only_the_shuffles Toy.engine Samples.nine_rows 3%nat).
  vm_compute. reflexivity.
Defined.

(** C10, as the specification words it, fails in its last clause: two runs
    of the notebook with the same seed, on nine and on eleven training
    images, both enter the second [fit] with the generator seeded with 7,
    but with different random streams (and different initial variables):
    the masks the larger model is trained with do not follow from the seed. *)
Lemma deep_dropout_stream_not_fixed_by_seed :
  exists (G G' : @Globals Toy.engine) (w w' s s' : nat),
    run Samples.nine_rows program (fresh (E := Toy.engine) 0%nat) = Some G /\
    run Samples.eleven_rows program (fresh (E := Toy.engine) 0%nat) = Some G' /\
    nth_error (g_events G) 3 = Some (FitEntered (E := Toy.engine) Deep 7%nat (w, s)) /\
    nth_error (g_events G') 3 = Some (FitEntered (E := Toy.engine) Deep 7%nat (w', s')) /\
    s <> s' /\
    w <> w'.
Proof.
  eexists _, _, _, _, _, _.
  split; [vm_compute; reflexivity |].
  split; [vm_compute; reflexivity |].
  split; [reflexivity |].
  split; [reflexivity |].
  split; discriminate.
Qed.

(** X14: what the notebook computes does not depend on the state the
    generator was in when the kernel started, because the seed is set
    before anything draws from it. *)
Theorem notebook_independent_of_initial_generator :
  forall (E : Engine) (raw : RawData) (g0 g0' : generator),
    run raw program (fresh g0) = run raw program (fresh g0').
Proof.
  intros E raw g0 g0'. unfold program. cbn [run exec]. unfold fresh.
  destruct (Pyplot.plot_grid (raw_X_train raw)); reflexivity.
Qed.

(** * Further properties of the calls the notebook makes *)

Import More.

(** ** Label encoding: failure and negative labels *)


Lemma one_hot_row_None (nb l : Z) :
  one_hot_row nb l = None <-> (nb < 0 \/ l < - nb \/ nb <= l)%Z.
Proof.
  unfold one_hot_row, zeros, Exn.bind.
  destruct (nb <? 0)%Z eqn:Hnb.
  - apply Z.ltb_lt in Hnb. split; auto.
  - apply Z.ltb_ge in Hnb. unfold setitem. rewrite repeat_length, Z2Nat.id by lia.
    destruct ((0 <=? l)%Z && (l <? nb)%Z) eqn:H1.
    + apply andb_prop in H1. destruct H1 as [H0 H1].
      apply Z.leb_le in H0. apply Z.ltb_lt in H1. split; [discriminate | lia].
    + destruct ((- nb <=? l)%Z && (l <? 0)%Z) eqn:H2.
      * apply andb_prop in H2. destruct H2 as [H0 H2].
        apply Z.leb_le in H0. apply Z.ltb_lt in H2. split; [discriminate | lia].
      * split; [intros _ | reflexivity].
        apply andb_false_iff in H1, H2.
        rewrite Z.leb_gt, Z.ltb_ge in H1, H2. lia.
Qed.


Lemma one_hot_row_wrap (nb l : Z) :
  (- nb <= l < 0)%Z -> one_hot_row nb l = one_hot_row nb (l + nb).
Proof.
  intros H. unfold one_hot_row, zeros, Exn.bind.
  destruct (nb <? 0)%Z eqn:Hnb; [reflexivity |].
  apply Z.ltb_ge in Hnb. unfold setitem. rewrite repeat_length, Z2Nat.id by lia.
  replace ((0 <=? l)%Z && (l <? nb)%Z) with false
    by (symmetry; apply andb_false_iff; left; apply Z.leb_gt; lia).
  replace ((- nb <=? l)%Z && (l <? 0)%Z) with true
    by (symmetry; apply andb_true_intro; split; [apply Z.leb_le | apply Z.ltb_lt]; lia).
  replace ((0 <=? l + nb)%Z && (l + nb <? nb)%Z) with true
    by (symmetry; apply andb_true_intro; split; [apply Z.leb_le | apply Z.ltb_lt]; lia).
  reflexivity.
Qed.

(** X2: whenever [to_categorical] returns, the arg-max of a row is its label
    for a label that is not negative, and the label plus the row width for a
    negative one (Python's index rule): negative labels do not round-trip. *)
Theorem argmax_decodes_wrapped_label :
  forall (y : list Z) (Y : list (list spec_float)),
    to_categorical y = Some Y ->
    Forall2 (fun l row => argmax row = Some (wrapped_label (shape1 Y) l)) y Y.
Proof.
  intros y Y H.
  destruct (to_categorical_width y Y H) as (m & Hm & _ & Hw). rewrite Hw.
  unfold to_categorical, Exn.bind in H. rewrite Hm in H.
  destruct (np_max_spec y m Hm) as [_ Hle].
  apply mapM_Forall2 in H. clear Hm Hw. revert Hle.
  induction H as [| l row t rows Hrow _ IH]; intros Hle; constructor.
  - inversion Hle as [| ? ? Hl _]; subst.
    assert (Hn : one_hot_row (m + 1) l <> None) by congruence.
    rewrite one_hot_row_None in Hn. unfold wrapped_label.
    destruct (l <? 0)%Z eqn:Hneg.
    + apply Z.ltb_lt in Hneg.
      rewrite one_hot_row_wrap, one_hot_row_shape in Hrow by lia.
      inversion Hrow; subst. rewrite argmax_one_hot. f_equal. lia.
    + apply Z.ltb_ge in Hneg.
      rewrite one_hot_row_shape in Hrow by lia.
      inversion Hrow; subst. rewrite argmax_one_hot. f_equal. lia.
  - apply IH. now inversion Hle.
Qed.

Lemma argmax_decodes_wrapped_label_witness :
  Forall2 (fun l row => argmax row = Some (wrapped_label 3 l)) [0; -1; 2]%Z
    [[one64; zero64; zero64]; [zero64; zero64; one64]; [zero64; zero64; one64]].
Proof.
  apply (argmax_decodes_wrapped_label [0; -1; 2]%Z
           [[one64; zero64; zero64]; [zero64; zero64; one64]; [zero64; zero64; one64]]).
  reflexivity.
Defined.

(** X3: the training labels are encoded as wide as the class count (which
    is read off the test labels) exactly when the largest training label
    equals the largest test label. *)
Theorem label_widths_agree_iff_same_max :
  forall (raw : RawData) (d : Data),
    preprocess raw = Some d ->
    (Forall (fun row => Z.of_nat (length row) = num_classes d) (y_train d) <->
     np_max (raw_y_train raw) = np_max (raw_y_test raw)).
Proof.
  intros raw d H.
  destruct (preprocess_inv raw d H) as (Htr & Hte & Hnc & _).
  destruct (to_categorical_width _ _ Htr) as (mtr & Hmtr & Hrtr & Hwtr).
  destruct (to_categorical_width _ _ Hte) as (mte & Hmte & _ & Hwte).
  rewrite Hnc, Hwte, Hmtr, Hmte. split.
  - intros Hall. f_equal.
    destruct (y_train d) as [| row rows] eqn:Hy.
    + unfold to_categorical, Exn.bind in Htr. rewrite Hmtr in Htr.
      apply mapM_Forall2 in Htr. inversion Htr as [Hnil |]; subst.
      symmetry in Hnil. rewrite Hnil in Hmtr. discriminate.
    + inversion Hall; subst. inversion Hrtr; subst. lia.
  - intros Heq. inversion Heq; subst. exact Hrtr.
Qed.

Lemma label_widths_agree_iff_same_max_witness :
  Forall (fun row => Z.of_nat (length row) = num_classes Samples.tiny_data)
         (y_train Samples.tiny_data) <->
  np_max (raw_y_train Samples.tiny) = np_max (raw_y_test Samples.tiny).
Proof.
  apply (label_widths_agree_iff_same_max Samples.tiny Samples.tiny_data).
  reflexivity.
Defined.

(** ** Pixel scaling keeps the order of intensities *)

Lemma scale_order_on_bytes (x : Z) :
  (0 <= x <= 255)%Z ->
  forall y, (0 <= y <= 255)%Z ->
    (if (x <? y)%Z then SFltb (scale x) (scale y) else true) = true.
Proof.
  intros Hx.
  apply (uint8_cases (fun y => if (x <? y)%Z then SFltb (scale x) (scale y) else true)).
  revert x Hx.
  apply (uint8_cases
           (fun x =>
              let vx := scale x in
              forallb (fun y => if (x <? y)%Z then SFltb vx (scale y) else true)
                      (map Z.of_nat (seq 0 256)))).
  vm_compute. reflexivity.
Qed.

(** X4: on 8-bit values the scaling is strictly increasing, sends 0 to 0.0
    and 255 to exactly 1.0. *)
Theorem scale_strictly_increasing :
  forall x y : Z,
    (0 <= x <= 255)%Z -> (0 <= y <= 255)%Z -> (x < y)%Z ->
    SFltb (scale x) (scale y) = true /\
    scale 0 = f32_0 /\ scale 255 = f32_1.
Proof.
  intros x y Hx Hy Hxy. split; [| split; reflexivity].
  pose proof (scale_order_on_bytes x Hx y Hy) as H.
  apply Z.ltb_lt in Hxy. rewrite Hxy in H. exact H.
Qed.

Lemma scale_strictly_increasing_witness :
  SFltb (scale 127) (scale 128) = true /\ scale 0 = f32_0 /\ scale 255 = f32_1.
Proof.
  apply (scale_strictly_increasing 127 128); lia.
Defined.
(** ** Shapes and parameter counts *)

(** X6: on any channels-first input [c; h; w], a block
    Conv(k, 'same'), Dropout, Conv(k, 'same'), MaxPool(2x2) keeps the extent
    through the convolutions and the dropout and ends with [k] channels of
    extent [h / 2] by [w / 2] (rounded down). *)
Theorem conv_block_halves_extent :
  forall (k rows cols c h w : Z) (p : Q) (s1 s2 : option shape)
         (a1 a2 : activation) (c1 c2 : option constraint),
    infer [c; h; w]
      [ Convolution2D k rows cols s1 same a1 c1; Dropout p;
        Convolution2D k rows cols s2 same a2 c2; MaxPooling2D 2 2 ] =
    Some [[k; h; w]; [k; h; w]; [k; h; w]; [k; h / 2; w / 2]]%Z.
Proof.
  intros. cbn [infer get_output_shape_for Exn.bind]. unfold conv_output_length.
  cbn [Z.eqb Exn.bind].
  assert (E1 : forall z : Z, (z + 1 - 1)%Z = z) by (intros; lia).
  assert (E2 : forall z : Z, (z - 2 + 1 + 2 - 1)%Z = z) by (intros; lia).
  rewrite !Z.div_1_r, !E1. cbn [infer get_output_shape_for Exn.bind Z.eqb].
  rewrite !E2. reflexivity.
Qed.

(** X7: the parameter totals [model.summary()] prints are
    4,204,960 + 513 * num_classes for the simple model and
    2,909,984 + 513 * num_classes for the larger one. *)
Theorem total_params_of_models :
  forall num_classes : Z,
    exists simple larger,
      shallow_model num_classes = Some simple /\
      deep_model num_classes = Some larger /\
      total_params simple = (4204960 + 513 * num_classes)%Z /\
      total_params larger = (2909984 + 513 * num_classes)%Z.
Proof.
  intros nc. rewrite shallow_model_value, deep_model_value.
  eexists. eexists. split; [reflexivity |]. split; [reflexivity |].
  unfold total_params, input_shapes.
  cbn [layers inputs output_shapes removelast combine map fst snd count_params fold_right].
  split; lia.
Qed.

(** ** Batch sizes that divide the number of rows *)

(** X8: when the batch size divides the (non-zero) number of training rows,
    [fit] returns and the updates it makes in every epoch are computed on
    [size / b] batches of exactly [b] rows, the consecutive slices of the
    epoch's shuffled row order, whose concatenation is that order (no short
    batch). *)
Theorem fit_epoch_even_batches :
  forall (E : Engine) (size nb_epoch b : nat) (v : variables * stream)
         (o : SGD) (g : generator) (e : nat),
    b <> 0%nat ->
    size <> 0%nat ->
    (size mod b = 0)%nat ->
    (e < nb_epoch)%nat ->
    let p := plan (fun k => current_lr (steps k o)) size b
                  (epoch_orders nb_epoch g (range size)) in
    exists st order,
      fit size nb_epoch b v o g = Some st /\
      vars st = carry_out b p v /\
      order = snd (shuffles (S e) g (range size)) /\
      Permutation order (range size) /\
      epoch_batches e p =
        map (fun i => slice order (i * b) (Nat.min size ((i + 1) * b)))
            (range (size / b)) /\
      length (epoch_batches e p) = (size / b)%nat /\
      Forall (fun ids => length ids = b) (epoch_batches e p) /\
      concat (epoch_batches e p) = order.
Proof.
  intros E size nb_epoch b v o g e Hb Hs Hr He p.
  destruct (fit_plan (fun k => current_lr (steps k o)) size nb_epoch b v o g Hb Hs)
    as (st & Hfit & _ & Hv); [reflexivity |].
  pose proof (epoch_orders_nth nb_epoch g (range size) e He) as Hn.
  set (order := snd (shuffles (S e) g (range size))) in *.
  assert (P : Permutation order (range size)).
  { pose proof (epoch_orders_perm nb_epoch g (range size)) as F.
    rewrite Forall_forall in F. apply F. eapply nth_error_In; eauto. }
  pose proof (range_length_perm order size P) as Hlo.
  destruct (cut_even order size b Hb Hr Hlo) as [Hlen Hfull].
  assert (Hb' : epoch_batches e p = cut order (batch_bounds size b)).
  { unfold p, plan. now apply epoch_batches_plan. }
  exists st, order.
  split; [exact Hfit |]. split; [exact Hv |]. split; [reflexivity |].
  split; [exact P |]. rewrite Hb'.
  split.
  { unfold cut, batch_bounds. rewrite map_map. simpl. now rewrite ceil_even. }
  split; [exact Hlen |]. split; [exact Hfull |].
  now apply concat_cut.
Qed.

Lemma fit_epoch_even_batches_witness :
  exists st order,
    fit (E := Toy.engine) 6 2 3 (0%nat, 0%nat) sgd 4%nat = Some st /\
    vars st =
      carry_out (E := Toy.engine) 3
        (plan (fun k => current_lr (steps k sgd)) 6 3
              (epoch_orders (E := Toy.engine) 2 4%nat (range 6)))
        (0%nat, 0%nat) /\
    order = snd (shuffles (E := Toy.engine) 2 4%nat (range 6)) /\
    Permutation order (range 6) /\
    epoch_batches 1
      (plan (fun k => current_lr (steps k sgd)) 6 3
            (epoch_orders (E := Toy.engine) 2 4%nat (range 6))) =
      map (fun i => slice order (i * 3) (Nat.min 6 ((i + 1) * 3))) (range (6 / 3)) /\
    length (epoch_batches 1
              (plan (fun k => current_lr (steps k sgd)) 6 3
                    (epoch_orders (E := Toy.engine) 2 4%nat (range 6)))) = (6 / 3)%nat /\
    Forall (fun ids => length ids = 3%nat)
           (epoch_batches 1
              (plan (fun k => current_lr (steps k sgd)) 6 3
                    (epoch_orders (E := Toy.engine) 2 4%nat (range 6)))) /\
    concat (epoch_batches 1
              (plan (fun k => current_lr (steps k sgd)) 6 3
                    (epoch_orders (E := Toy.engine) 2 4%nat (range 6)))) = order.
Proof.
  apply (fit_epoch_even_batches Toy.engine 6 2 3 (0%nat, 0%nat) sgd 4%nat 1).
  - discriminate.
  - discriminate.
  - reflexivity.
  - lia.
Defined.

(** ** What the notebook needs of its data *)

Lemma plot_grid_needs_nine {A : Type} (X : list A) :
  Pyplot.plot_grid X <> None -> (9 <= length X)%nat.
Proof.
  intros H.
  do 9 (destruct X as [| ? X]; [exfalso; apply H; reflexivity |]).
  simpl. lia.
Qed.

Lemma run_cons {E : Engine} (raw : RawData) (s : stmt) (rest : list stmt) (G0 : Globals) :
  run raw (s :: rest) G0 <> None ->
  exists G1, exec raw s G0 = Some G1 /\ run raw rest G1 <> None.
Proof.
  cbn [run]. destruct (exec raw s G0) as [G1 |]; cbn [Exn.bind]; [eauto | congruence].
Qed.

Lemma standardize_user_data_inv {A B : Type} (m : Sequential) (X : nd4 A)
    (Y : list (list B)) :
  standardize_user_data m X Y <> None ->
  exists s width,
    inputs m = Some s /\ outputs m = Some [width] /\
    forallb (image_has_shape s) X = true /\
    Forall (fun row => Z.of_nat (length row) = width) Y /\
    length X = length Y.
Proof.
  unfold standardize_user_data, Exn.bind.
  destruct (inputs m) as [s |]; [| congruence].
  destruct (outputs m) as [[| width [| ? ?]] |]; try congruence.
  destruct (forallb (image_has_shape s) X) eqn:HX; [| simpl; congruence].
  destruct (forallb (fun row : list B => (Z.of_nat (length row) =? width)%Z) Y) eqn:HY;
    [| simpl; congruence].
  destruct (Nat.eqb (length X) (length Y)) eqn:HL; [| simpl; congruence].
  intros _. exists s, width. repeat split; auto.
  - rewrite forallb_forall in HY. apply Forall_forall. intros row Hr.
    apply Z.eqb_eq. now apply HY.
  - now apply Nat.eqb_eq.
Qed.

(** X13: the notebook runs to its end only on data it fits: at least nine
    training images (the plotting cell), every image 3x32x32 and as many
    labels as images in both splits, and the same largest label in the
    training and the test labels (the checks of [fit] on its arrays). *)
Theorem notebook_completes_only_on_fitting_data :
  forall (E : Engine) (raw : RawData) (g0 : generator),
    run raw program (fresh g0) <> None ->
    (9 <= length (raw_X_train raw))%nat /\
    forallb (image_has_shape [3; 32; 32]%Z) (raw_X_train raw) = true /\
    forallb (image_has_shape [3; 32; 32]%Z) (raw_X_test raw) = true /\
    length (raw_X_train raw) = length (raw_y_train raw) /\
    length (raw_X_test raw) = length (raw_y_test raw) /\
    raw_y_test raw <> [] /\
    np_max (raw_y_train raw) = np_max (raw_y_test raw).
Proof.
  intros E raw g0 H. unfold program in H.
  apply run_cons in H. destruct H as (G1 & H1 & H).
  apply run_cons in H. destruct H as (G2 & H2 & H).
  apply run_cons in H. destruct H as (G3 & H3 & H).
  apply run_cons in H. destruct H as (G4 & H4 & H).
  apply run_cons in H. destruct H as (G5 & H5 & H).
  apply run_cons in H. destruct H as (G6 & H6 & _).
  cbn [exec] in H1.
  destruct (Pyplot.plot_grid (raw_X_train raw)) as [cells |] eqn:Hplot; [| discriminate].
  cbn [Exn.bind] in H1. inversion H1; subst G1; clear H1.
  cbn [exec] in H2. inversion H2; subst G2; clear H2.
  cbn [exec g_gen g_data g_model g_vars g_sgd g_scores g_events fresh] in H3.
  destruct (preprocess raw) as [d |] eqn:Hp; [| discriminate].
  cbn [Exn.bind] in H3. inversion H3; subst G3; clear H3.
  cbn [exec Exn.bind g_gen g_data g_model g_vars g_sgd g_scores g_events build] in H4.
  rewrite shallow_model_value in H4. cbn [Exn.bind] in H4.
  match type of H4 with
  | context [initialize ?ls ?g] => destruct (initialize ls g) as [v1 g1]
  end.
  inversion H4; subst G4; clear H4.
  cbn [exec Exn.bind g_gen g_data g_model g_vars g_sgd g_scores g_events] in H5.
  inversion H5; subst G5; clear H5.
  cbn [exec Exn.bind g_gen g_data g_model g_vars g_sgd g_scores g_events snd] in H6.
  match type of H6 with
  | context [standardize_user_data ?m (X_train d) (y_train d)] =>
      destruct (standardize_user_data m (X_train d) (y_train d)) eqn:Str;
        [| discriminate];
      destruct (standardize_user_data m (X_test d) (y_test d)) eqn:Ste;
        [| discriminate];
      assert (Ntr : standardize_user_data m (X_train d) (y_train d) <> None) by congruence;
      assert (Nte : standardize_user_data m (X_test d) (y_test d) <> None) by congruence
  end.
  clear H6 Str Ste.
  apply standardize_user_data_inv in Ntr, Nte.
  destruct Ntr as (s & w & Hi & Ho & Sx & Wy & Lx).
  destruct Nte as (s' & w' & Hi' & Ho' & Sx' & Wy' & Lx').
  cbn [inputs] in Hi, Hi'. inversion Hi; subst s. inversion Hi'; subst s'.
  rewrite Ho in Ho'. inversion Ho'; subst w'. clear Ho' Hi Hi' Ho.
  destruct (preprocess_inv _ _ Hp) as (Ctr & Cte & _ & Xtr & Xte).
  rewrite Xtr in Sx, Lx. rewrite Xte in Sx', Lx'.
  rewrite (proj1 (normalize_keeps_shapes _ _)) in Sx.
  rewrite (proj1 (normalize_keeps_shapes _ _)) in Sx'.
  rewrite (proj2 (normalize_keeps_shapes [] _)) in Lx.
  rewrite (proj2 (normalize_keeps_shapes [] _)) in Lx'.
  destruct (to_categorical_width _ _ Ctr) as (mtr & Mtr & Rtr & _).
  destruct (to_categorical_width _ _ Cte) as (mte & Mte & Rte & _).
  assert (Ltr : length (y_train d) = length (raw_y_train raw)).
  { unfold to_categorical, Exn.bind in Ctr. rewrite Mtr in Ctr.
    now apply mapM_length in Ctr. }
  assert (Lte : length (y_test d) = length (raw_y_test raw)).
  { unfold to_categorical, Exn.bind in Cte. rewrite Mte in Cte.
    now apply mapM_length in Cte. }
  assert (Ntr : raw_y_train raw <> []) by (intros E0; rewrite E0 in Mtr; discriminate).
  assert (Nte : raw_y_test raw <> []) by (intros E0; rewrite E0 in Mte; discriminate).
  split; [apply plot_grid_needs_nine; congruence |].
  split; [exact Sx |]. split; [exact Sx' |].
  split; [congruence |]. split; [congruence |]. split; [exact Nte |].
  rewrite Mtr, Mte. f_equal.
  destruct (y_train d) as [| rtr ?] eqn:Ytr.
  { simpl in Ltr. symmetry in Ltr. apply length_zero_iff_nil in Ltr. contradiction. }
  destruct (y_test d) as [| rte ?] eqn:Yte.
  { simpl in Lte. symmetry in Lte. apply length_zero_iff_nil in Lte. contradiction. }
  inversion Wy; subst. inversion Wy'; subst. inversion Rtr; subst. inversion Rte; subst.
  lia.
Qed.

Lemma notebook_completes_only_on_fitting_data_witness :
  (9 <= length (raw_X_train Samples.nine_rows))%nat /\
  forallb (image_has_shape [3; 32; 32]%Z) (raw_X_train Samples.nine_rows) = true /\
  forallb (image_has_shape [3; 32; 32]%Z) (raw_X_test Samples.nine_rows) = true /\
  length (raw_X_train Samples.nine_rows) = length (raw_y_train Samples.nine_rows) /\
  length (raw_X_test Samples.nine_rows) = length (raw_y_test Samples.nine_rows) /\
  raw_y_test Samples.nine_rows <> [] /\
  np_max (raw_y_train Samples.nine_rows) = np_max (raw_y_test Samples.nine_rows).
Proof.
  apply (notebook_completes_only_on_fitting_data Toy.engine Samples.nine_rows 0%nat).
  vm_compute. discriminate.
Defined.

(** ** The plotting cell *)

Import Pyplot.

